(** * Stagehand inference layer ([lib/inference.ts]): a shallow embedding

    The five operations of [lib/inference.ts] -- [verifyActCompletion],
    [act], [extract], [observe] and [ask] -- are embedded as functions in a
    state-and-exception monad.  The state records every request handed to
    the completion client, every message handed to the logger, and the
    private state of the completion client, which is a collaborator and is
    therefore a parameter of the development.

    The responses of the client are typed [any] in the source, so they are
    modelled as dynamically typed JavaScript values and the operations
    inspect them with the language's own rules (property reads that raise
    on [null]/[undefined], truthiness, [typeof], strict equality).

    What the embedding fixes:
    - an [await] is sequencing: an operation runs alone against the client,
      whose answer may depend on the request and on all that came before;
    - an answer of the client is a value, so that the assignment
      [refinedResponse.metadata = metadataResponse] yields the updated
      object, which is what [extract] returns;
    - the logger records its argument and neither fails nor answers;
    - numbers are the integers: the retry counter starts at 0 and grows by
      1, and the chunk counters count. *)

From Equations Require Import Equations.
From Stdlib Require Import List String ZArith Bool Lia QArith_base DecimalString.
Import ListNotations.
Local Open Scope string_scope.
Local Open Scope Z_scope.

Set Implicit Arguments.
Set Warnings "-register-all".

(** ** JavaScript values *)

(** JSON-like data plus [undefined].  Numbers are the integer-valued ones
    (lengths, identifiers, counters); an array carries its items and the
    named properties that were assigned to it; an object is the list of its
    own properties in insertion order. *)
Inductive JsVal : Type :=
| JUndefined
| JNull
| JBool (b : bool)
| JNum (n : Z)
| JStr (s : string)
| JArr (items : list JsVal) (own : list (string * JsVal))
| JObj (own : list (string * JsVal)).

(** What an operation can throw, or a promise reject with. *)
Inductive Exception : Type :=
| TypeError (property : string)
| SyntaxError (message : string)
| Error (message : string)
| Rejection (reason : JsVal).

Inductive Result (A : Type) : Type :=
| Ok (a : A)
| Err (e : Exception).
Arguments Ok {A} a.
Arguments Err {A} e.

Module Js.

(** [typeof v] *)
Definition typeof (v : JsVal) : string :=
  match v with
  | JUndefined => "undefined"
  | JNull => "object"
  | JBool _ => "boolean"
  | JNum _ => "number"
  | JStr _ => "string"
  | JArr _ _ => "object"
  | JObj _ => "object"
  end.

(** ToBoolean: what [!v], [v && ...] and [v ? ... : ...] test. *)
Definition truthy (v : JsVal) : bool :=
  match v with
  | JUndefined => false
  | JNull => false
  | JBool b => b
  | JNum n => negb (n =? 0)
  | JStr s => negb (s =? "")%string
  | JArr _ _ => true
  | JObj _ => true
  end.

(** [v === w] against a string literal. *)
Definition strict_eq_str (v : JsVal) (lit : string) : bool :=
  match v with
  | JStr s => (s =? lit)%string
  | _ => false
  end.

(** [v === undefined] *)
Definition is_undefined (v : JsVal) : bool :=
  match v with
  | JUndefined => true
  | _ => false
  end.

Fixpoint lookup (k : string) (own : list (string * JsVal)) : option JsVal :=
  match own with
  | [] => None
  | (k', v) :: rest => if (k' =? k)%string then Some v else lookup k rest
  end.

(** Assignment to an own property: an existing key keeps its position, a
    new key goes last. *)
Fixpoint store (k : string) (v : JsVal) (own : list (string * JsVal))
  : list (string * JsVal) :=
  match own with
  | [] => [(k, v)]
  | (k', v') :: rest =>
      if (k' =? k)%string then (k, v) :: rest else (k', v') :: store k v rest
  end.

Definition own_or_undefined (k : string) (own : list (string * JsVal)) : JsVal :=
  match lookup k own with
  | Some v => v
  | None => JUndefined
  end.

Definition index_key (i : nat) : string :=
  NilZero.string_of_uint (Nat.to_uint i).

(** [v.k] for a property name [k] that is no array index and that no
    prototype defines, but [length]: such are all the names the operations
    read.  Reading a property of [undefined] or [null] raises; a boolean
    or a number has no such property, a string has [length]. *)
Definition get (v : JsVal) (k : string) : Result JsVal :=
  match v with
  | JUndefined | JNull => Err (TypeError k)
  | JBool _ | JNum _ => Ok JUndefined
  | JStr s =>
      if (k =? "length")%string then Ok (JNum (Z.of_nat (String.length s)))
      else Ok JUndefined
  | JArr items own =>
      if (k =? "length")%string then Ok (JNum (Z.of_nat (List.length items)))
      else Ok (own_or_undefined k own)
  | JObj own => Ok (own_or_undefined k own)
  end.

(** [v[i]] for a literal index [i]. *)
Definition at_index (v : JsVal) (i : nat) : Result JsVal :=
  match v with
  | JUndefined | JNull => Err (TypeError (index_key i))
  | JBool _ | JNum _ => Ok JUndefined
  | JStr s =>
      match String.get i s with
      | Some c => Ok (JStr (String c EmptyString))
      | None => Ok JUndefined
      end
  | JArr items _ => Ok (nth i items JUndefined)
  | JObj own => Ok (own_or_undefined (index_key i) own)
  end.

(** [v.k = x] in module (strict) code, for a property name [k] that is
    neither an array index nor [length]: it raises on [undefined], [null]
    and on primitives. *)
Definition set (v : JsVal) (k : string) (x : JsVal) : Result JsVal :=
  match v with
  | JArr items own => Ok (JArr items (store k x own))
  | JObj own => Ok (JObj (store k x own))
  | _ => Err (TypeError k)
  end.

(** Object-shaped: an array or a plain object, the values that are not
    [null] and of which [typeof] says ["object"]. *)
Definition is_object (v : JsVal) : bool :=
  match v with
  | JArr _ _ | JObj _ => true
  | _ => false
  end.

(** Whether [k] is among the own properties of an object. *)
Definition has_own (v : JsVal) (k : string) : bool :=
  match v with
  | JArr _ own | JObj own =>
      match lookup k own with
      | Some _ => true
      | None => false
      end
  | _ => false
  end.

End Js.

(** ** The language runtime *)

(** Built-ins of the language that the operations call and that are no code
    of this repository.  [JSON_parse] is [JSON.parse], which converts its
    argument to a text and raises on a text that is not JSON;
    [JSON_stringify] is [JSON.stringify] ([None] where it answers
    [undefined]); [converted_gt_zero v] is [v > 0] for a string or an
    object [v], which the language converts to a number first and may fail
    to convert. *)
Class JsRuntime : Type := {
  JSON_parse : JsVal -> Result JsVal;
  JSON_stringify : JsVal -> option string;
  converted_gt_zero : JsVal -> Result bool
}.

Module Cmp.

(** [v > 0].  A number is compared as it is and a boolean as 0 or 1;
    [undefined] is NaN, which is greater than nothing, and [null] is 0; the
    conversion of a string or an object is the runtime's. *)
Definition gt_zero {rt : JsRuntime} (v : JsVal) : Result bool :=
  match v with
  | JUndefined | JNull => Ok false
  | JBool b => Ok b
  | JNum n => Ok (0 <? n)
  | JStr _ | JArr _ _ | JObj _ => converted_gt_zero v
  end.

End Cmp.

(** ** Output schemas *)

(** The fragment of the schema language that the operations build:
    [z.string()], [z.boolean()], [z.number()], [z.array(s)],
    [z.object({...})] and [s.describe(text)]. *)
Inductive ZodSchema : Type :=
| ZString
| ZBoolean
| ZNumber
| ZArray (item : ZodSchema)
| ZObject (shape : list (string * ZodSchema))
| ZDescribe (inner : ZodSchema) (text : string).

Module Zod.

(** Whether a value passes the schema: an object schema wants a plain
    object with every declared key passing, and tolerates other keys. *)
Fixpoint conforms (s : ZodSchema) (v : JsVal) {struct s} : bool :=
  match s with
  | ZString => match v with JStr _ => true | _ => false end
  | ZBoolean => match v with JBool _ => true | _ => false end
  | ZNumber => match v with JNum _ => true | _ => false end
  | ZArray item =>
      match v with
      | JArr items _ => forallb (conforms item) items
      | _ => false
      end
  | ZObject shape =>
      match v with
      | JObj own =>
          (fix fields (sh : list (string * ZodSchema)) : bool :=
             match sh with
             | [] => true
             | (k, sk) :: rest =>
                 conforms sk (Js.own_or_undefined k own) && fields rest
             end) shape
      | _ => false
      end
  | ZDescribe inner _ => conforms inner v
  end.

(** The declared keys of an object schema, [None] for any other. *)
Fixpoint shape_of (s : ZodSchema) : option (list (string * ZodSchema)) :=
  match s with
  | ZObject shape => Some shape
  | ZDescribe inner _ => shape_of inner
  | _ => None
  end.

Definition declares (s : ZodSchema) (k : string) : bool :=
  match shape_of s with
  | Some shape => existsb (fun f => (fst f =? k)%string) shape
  | None => false
  end.

End Zod.

(** ** Requests to the completion client *)

Definition AvailableModel : Type := string.
Definition Buffer : Type := list Byte.byte.

Inductive Role : Type := System | User | Assistant.

Record ChatMessage : Type := {
  role : Role;
  content : string
}.

Record Image : Type := {
  buffer : Buffer;
  description : string
}.

Record ResponseModel : Type := {
  name : string;
  schema : ZodSchema
}.

(** The argument of [createChatCompletion]; an absent key is [None]. *)
Record ChatCompletionOptions : Type := {
  model : AvailableModel;
  messages : list ChatMessage;
  temperature : Q;
  top_p : Q;
  frequency_penalty : Q;
  presence_penalty : Q;
  tool_choice : option string;
  tools : option JsVal;
  image : option Image;
  response_model : option ResponseModel
}.

(** The argument of the logger. *)
Record LogMessage : Type := {
  category : option string;
  message : string
}.

(** ** Collaborators *)

(** The completion client answers a request with a value or a failure and
    moves to a new state of its own; [S] is that state (the model, the
    network, a script of canned answers). *)
Record LLMClient (S : Type) : Type := {
  createChatCompletion : ChatCompletionOptions -> S -> Result JsVal * S
}.

Record LLMProvider (S : Type) : Type := {
  getClient : AvailableModel -> LLMClient S
}.

(** The prompt templates of [./prompt]: pure functions to messages, the
    tool set offered by [act] and the caption of an annotated screenshot. *)
Class PromptBuilder : Type := {
  actTools : JsVal;
  AnnotatedScreenshotText : string;
  buildActSystemPrompt : ChatMessage;
  buildActUserPrompt : string -> option string -> string -> ChatMessage;
  buildAskSystemPrompt : ChatMessage;
  buildAskUserPrompt : string -> ChatMessage;
  buildExtractSystemPrompt : ChatMessage;
  buildExtractUserPrompt : string -> string -> ChatMessage;
  buildObserveSystemPrompt : ChatMessage;
  buildObserveUserMessage : string -> string -> ChatMessage;
  buildVerifyActCompletionSystemPrompt : ChatMessage;
  buildVerifyActCompletionUserPrompt : string -> string -> option string -> ChatMessage;
  buildRefineSystemPrompt : ChatMessage;
  buildRefineUserPrompt : string -> JsVal -> JsVal -> ChatMessage;
  buildMetadataSystemPrompt : ChatMessage;
  buildMetadataPrompt : string -> JsVal -> Z -> Z -> ChatMessage
}.

(** ** The monad of an operation *)

(** What an operation can observe and change: the requests issued so far
    (oldest first), the messages logged so far, the state of the client. *)
Record World (S : Type) : Type := {
  requests : list ChatCompletionOptions;
  logs : list LogMessage;
  client_state : S
}.

Definition M (S A : Type) : Type := World S -> Result A * World S.

Definition ret {S A} (a : A) : M S A := fun w => (Ok a, w).

Definition throw {S A} (e : Exception) : M S A := fun w => (Err e, w).

Definition bind {S A B} (m : M S A) (k : A -> M S B) : M S B :=
  fun w =>
    match m w with
    | (Ok a, w') => k a w'
    | (Err e, w') => (Err e, w')
    end.

(** A step of the language itself: it raises or goes on, and touches
    nothing. *)
Definition lift {S A} (r : Result A) : M S A := fun w => (r, w).

Declare Scope js_scope.
Delimit Scope js_scope with js.
Notation "'let*' x ':=' m 'in' k" := (bind m (fun x => k))
  (at level 10, x binder, m at level 100, k at level 200) : js_scope.
Notation "m ';;' k" := (bind m (fun _ => k))
  (at level 100, k at level 200, right associativity) : js_scope.

(** [await llmClient.createChatCompletion(options)]: the request is
    recorded, the client answers and moves on. *)
Definition await_completion {S} (llmClient : LLMClient S)
    (options : ChatCompletionOptions) : M S JsVal :=
  fun w =>
    let (answer, s') := createChatCompletion llmClient options (client_state w) in
    (answer,
     {| requests := requests w ++ [options];
        logs := logs w;
        client_state := s' |}).

(** [logger(msg)] *)
Definition logger {S} (msg : LogMessage) : M S unit :=
  fun w =>
    (Ok tt,
     {| requests := requests w;
        logs := logs w ++ [msg];
        client_state := client_state w |}).

(** The world after one more request, and after one more logged message:
    what [await_completion] and [logger] leave behind. *)
Definition requested {S} (w : World S) (options : ChatCompletionOptions) (s' : S)
  : World S :=
  {| requests := requests w ++ [options];
     logs := logs w;
     client_state := s' |}.

Definition logged {S} (w : World S) (msg : LogMessage) : World S :=
  {| requests := requests w;
     logs := logs w ++ [msg];
     client_state := client_state w |}.

(** ** The operations of [lib/inference.ts] *)

Section Operations.

Context {S : Type} {rt : JsRuntime} {pb : PromptBuilder}.

Local Open Scope js_scope.

(** The sampling parameters are the same in every request. *)
Definition temperature_0_1 : Q := Qmake 1 10.
Definition one : Q := Qmake 1 1.
Definition zero : Q := Qmake 0 1.

(** [z.object({ completed: z.boolean().describe(...) })] *)
Definition verificationSchema : ZodSchema :=
  ZObject [("completed", ZDescribe ZBoolean "true if the goal is accomplished")].

Definition verifyActCompletion_options (goal steps : string)
    (modelName : AvailableModel) (screenshot : option Buffer)
    (domElements : option string) : ChatCompletionOptions :=
  {| model := modelName;
     messages :=
       [ buildVerifyActCompletionSystemPrompt;
         buildVerifyActCompletionUserPrompt goal steps domElements ];
     temperature := temperature_0_1;
     top_p := one;
     frequency_penalty := zero;
     presence_penalty := zero;
     tool_choice := None;
     tools := None;
     image :=
       match screenshot with
       | Some b =>
           Some {| buffer := b;
                   description := "This is a screenshot of the whole visible page." |}
       | None => None
       end;
     response_model :=
       Some {| name := "Verification"; schema := verificationSchema |} |}.

(** ["Unexpected response format: " + JSON.stringify(response)] *)
Definition unexpected_format (response : JsVal) : string :=
  "Unexpected response format: " ++
  match JSON_stringify response with
  | Some text => text
  | None => "undefined"
  end.

Definition verifyActCompletion (goal steps : string)
    (llmProvider : LLMProvider S) (modelName : AvailableModel)
    (screenshot : option Buffer) (domElements : option string) : M S JsVal :=
  let llmClient := getClient llmProvider modelName in
  let* response :=
    await_completion llmClient
      (verifyActCompletion_options goal steps modelName screenshot domElements) in
  if negb (Js.truthy response) || negb (Js.typeof response =? "object")%string then
    logger {| category := Some "VerifyAct";
              message := unexpected_format response |};;
    ret (JBool false)
  else
    let* completed := lift (Js.get response "completed") in
    if Js.is_undefined completed then
      logger {| category := Some "VerifyAct";
                message := "Missing 'completed' field in response" |};;
      ret (JBool false)
    else
      lift (Js.get response "completed").

(** The request of [act]: the action tools are offered, the choice among
    them is left to the model, and the screenshot goes along when there
    is one. *)
Definition act_options (action : string) (steps : option string)
    (domElements : string) (modelName : AvailableModel)
    (screenshot : option Buffer) : ChatCompletionOptions :=
  {| model := modelName;
     messages :=
       [ buildActSystemPrompt;
         buildActUserPrompt action steps domElements ];
     temperature := temperature_0_1;
     top_p := one;
     frequency_penalty := zero;
     presence_penalty := zero;
     tool_choice := Some "auto";
     tools := Some actTools;
     image :=
       match screenshot with
       | Some b => Some {| buffer := b; description := AnnotatedScreenshotText |}
       | None => None
       end;
     response_model := None |}.

(** [response.choices[0].message.tool_calls] *)
Definition tool_calls_of (response : JsVal) : Result JsVal :=
  match Js.get response "choices" with
  | Err e => Err e
  | Ok choices =>
      match Js.at_index choices 0 with
      | Err e => Err e
      | Ok choice =>
          match Js.get choice "message" with
          | Err e => Err e
          | Ok msg => Js.get msg "tool_calls"
          end
      end
  end.

(** [toolCalls && toolCalls.length > 0] *)
Definition has_tool_calls (toolCalls : JsVal) : Result bool :=
  if Js.truthy toolCalls then
    match Js.get toolCalls "length" with
    | Err e => Err e
    | Ok len => Cmp.gt_zero len
    end
  else Ok false.

(** [toolCalls[0].function] *)
Definition first_function (toolCalls : JsVal) : Result JsVal :=
  match Js.at_index toolCalls 0 with
  | Err e => Err e
  | Ok call => Js.get call "function"
  end.

(** The parameter [retries = 0]. *)
Definition retries_or_default (retries : option Z) : Z :=
  match retries with
  | Some n => n
  | None => 0
  end.

(** How many retries the ceiling of 2 leaves to a call. *)
Definition attempts_left (retries : option Z) : nat :=
  Z.to_nat (2 - retries_or_default retries).
Arguments attempts_left : simpl never.

Equations? act (action domElements : string) (steps : option string)
    (llmProvider : LLMProvider S) (modelName : AvailableModel)
    (screenshot : option Buffer) (retries : option Z) : M S JsVal
  by wf (attempts_left retries) lt :=
act action domElements steps llmProvider modelName screenshot retries :=
  let llmClient := getClient llmProvider modelName in
  let* response :=
    await_completion llmClient
      (act_options action steps domElements modelName screenshot) in
  let* toolCalls := lift (tool_calls_of response) in
  let* some := lift (has_tool_calls toolCalls) in
  if some then
    let* fn := lift (first_function toolCalls) in
    let* fname := lift (Js.get fn "name") in
    if Js.strict_eq_str fname "skipSection" then ret JNull
    else
      let* fn' := lift (first_function toolCalls) in
      let* payload := lift (Js.get fn' "arguments") in
      lift (JSON_parse payload)
  else
    match Z_ge_dec (retries_or_default retries) 2 with
    | left _ =>
        logger {| category := Some "Act";
                  message := "No tool calls found in response" |};;
        ret JNull
    | right _ =>
        act action domElements steps llmProvider modelName None
          (Some (retries_or_default retries + 1))
    end.
Proof. unfold attempts_left. cbn [retries_or_default]. lia. Qed.

(** [z.object({ progress: z.string().describe(...),
                 completed: z.boolean().describe(...) })] *)
Definition metadataSchema : ZodSchema :=
  ZObject
    [ ("progress",
       ZDescribe ZString
         "progress of what has been extracted so far, as concise as possible");
      ("completed",
       ZDescribe ZBoolean
         "true if the goal is now accomplished. Use this conservatively, only when you are sure that the goal has been completed.") ].

(** The three requests of [extract], in the order they are issued. *)
Definition extraction_options (instruction domElements : string)
    (schema : ZodSchema) (modelName : AvailableModel) : ChatCompletionOptions :=
  {| model := modelName;
     messages :=
       [ buildExtractSystemPrompt;
         buildExtractUserPrompt instruction domElements ];
     temperature := temperature_0_1;
     top_p := one;
     frequency_penalty := zero;
     presence_penalty := zero;
     tool_choice := None;
     tools := None;
     image := None;
     response_model := Some {| name := "Extraction"; schema := schema |} |}.

Definition refine_options (instruction : string)
    (previouslyExtractedContent extractionResponse : JsVal)
    (schema : ZodSchema) (modelName : AvailableModel) : ChatCompletionOptions :=
  {| model := modelName;
     messages :=
       [ buildRefineSystemPrompt;
         buildRefineUserPrompt instruction previouslyExtractedContent
           extractionResponse ];
     temperature := temperature_0_1;
     top_p := one;
     frequency_penalty := zero;
     presence_penalty := zero;
     tool_choice := None;
     tools := None;
     image := None;
     response_model := Some {| name := "RefinedExtraction"; schema := schema |} |}.

Definition metadata_options (instruction : string) (refinedResponse : JsVal)
    (chunksSeen chunksTotal : Z) (modelName : AvailableModel)
  : ChatCompletionOptions :=
  {| model := modelName;
     messages :=
       [ buildMetadataSystemPrompt;
         buildMetadataPrompt instruction refinedResponse chunksSeen chunksTotal ];
     temperature := temperature_0_1;
     top_p := one;
     frequency_penalty := zero;
     presence_penalty := zero;
     tool_choice := None;
     tools := None;
     image := None;
     response_model := Some {| name := "Metadata"; schema := metadataSchema |} |}.

(** [progress] is a parameter of the source that its body never reads. *)
Definition extract (instruction progress : string)
    (previouslyExtractedContent : JsVal) (domElements : string)
    (schema : ZodSchema) (llmProvider : LLMProvider S)
    (modelName : AvailableModel) (chunksSeen chunksTotal : Z) : M S JsVal :=
  let llmClient := getClient llmProvider modelName in
  let* extractionResponse :=
    await_completion llmClient
      (extraction_options instruction domElements schema modelName) in
  let* refinedResponse :=
    await_completion llmClient
      (refine_options instruction previouslyExtractedContent
         extractionResponse schema modelName) in
  let* metadataResponse :=
    await_completion llmClient
      (metadata_options instruction refinedResponse chunksSeen chunksTotal
         modelName) in
  lift (Js.set refinedResponse "metadata" metadataResponse).

(** [z.object({ elements: z.array(z.object({ elementId, description }))
                  .describe(...) })] *)
Definition observeSchema : ZodSchema :=
  ZObject
    [ ("elements",
       ZDescribe
         (ZArray
            (ZObject
               [ ("elementId", ZDescribe ZNumber "the number of the element");
                 ("description",
                  ZDescribe ZString
                    "a description of the element and what it is relevant for") ]))
         "an array of elements that match the instruction") ].

Definition observe_options (instruction domElements : string)
    (modelName : AvailableModel) (image : option Buffer) : ChatCompletionOptions :=
  {| model := modelName;
     messages :=
       [ buildObserveSystemPrompt;
         buildObserveUserMessage instruction domElements ];
     temperature := temperature_0_1;
     top_p := one;
     frequency_penalty := zero;
     presence_penalty := zero;
     tool_choice := None;
     tools := None;
     image :=
       match image with
       | Some b => Some {| buffer := b; description := AnnotatedScreenshotText |}
       | None => None
       end;
     response_model := Some {| name := "Observation"; schema := observeSchema |} |}.

Definition observe (instruction domElements : string)
    (llmProvider : LLMProvider S) (modelName : AvailableModel)
    (image : option Buffer) : M S JsVal :=
  let llmClient := getClient llmProvider modelName in
  let* observationResponse :=
    await_completion llmClient
      (observe_options instruction domElements modelName image) in
  if negb (Js.truthy observationResponse) then
    throw (Error "no response when finding a selector")
  else ret observationResponse.

Definition ask_options (question : string) (modelName : AvailableModel)
  : ChatCompletionOptions :=
  {| model := modelName;
     messages := [ buildAskSystemPrompt; buildAskUserPrompt question ];
     temperature := temperature_0_1;
     top_p := one;
     frequency_penalty := zero;
     presence_penalty := zero;
     tool_choice := None;
     tools := None;
     image := None;
     response_model := None |}.

(** [response.choices[0].message.content] *)
Definition content_of (response : JsVal) : Result JsVal :=
  match Js.get response "choices" with
  | Err e => Err e
  | Ok choices =>
      match Js.at_index choices 0 with
      | Err e => Err e
      | Ok choice =>
          match Js.get choice "message" with
          | Err e => Err e
          | Ok msg => Js.get msg "content"
          end
      end
  end.

Definition ask (question : string) (llmProvider : LLMProvider S)
    (modelName : AvailableModel) : M S JsVal :=
  let llmClient := getClient llmProvider modelName in
  let* response := await_completion llmClient (ask_options question modelName) in
  lift (content_of response).

End Operations.

(** ** The vocabulary of the statements *)

Section Vocabulary.

Context {S : Type} {rt : JsRuntime} {pb : PromptBuilder}.

Definition unexpected_format_log (response : JsVal) : LogMessage :=
  {| category := Some "VerifyAct"; message := unexpected_format response |}.

Definition missing_field_log : LogMessage :=
  {| category := Some "VerifyAct";
     message := "Missing 'completed' field in response" |}.

(** A well-formed response that carries no tool invocation: the
    [tool_calls] of its first choice are absent, [null] or an empty
    array. *)
Definition no_tool_invocations (response : JsVal) : bool :=
  match tool_calls_of response with
  | Ok JUndefined | Ok JNull | Ok (JArr [] _) => true
  | _ => false
  end.

(** The client answers every request it gets in a state of [Inv] with a
    response that satisfies [P], and stays in [Inv]. *)
Definition always_answers (c : LLMClient S) (P : JsVal -> bool)
    (Inv : S -> Prop) : Prop :=
  forall options s, Inv s ->
    exists response s',
      createChatCompletion c options s = (Ok response, s') /\
      P response = true /\ Inv s'.

Definition no_tool_calls_log : LogMessage :=
  {| category := Some "Act"; message := "No tool calls found in response" |}.

(** What [act] answers once the guard on [toolCalls] has passed. *)
Definition first_tool_call_result (toolCalls : JsVal) : Result JsVal :=
  match first_function toolCalls with
  | Err e => Err e
  | Ok fn =>
      match Js.get fn "name" with
      | Err e => Err e
      | Ok fname =>
          if Js.strict_eq_str fname "skipSection" then Ok JNull
          else
            match Js.get fn "arguments" with
            | Err e => Err e
            | Ok payload => JSON_parse payload
            end
      end
  end.

(** The stages of the pipeline, in the order of their requests. *)
Inductive Stage : Type := ExtractStage | RefineStage | MetadataStage.

Definition stage_number (st : Stage) : nat :=
  match st with
  | ExtractStage => 1
  | RefineStage => 2
  | MetadataStage => 3
  end.

(** The completion call of stage [st] is the first to fail, with [e]:
    [issued] are the requests up to and including the failing one and
    [s_end] is the state the client is left in. *)
Definition fails_at (c : LLMClient S) (st : Stage) (e : Exception)
    (instruction : string) (previouslyExtractedContent : JsVal)
    (domElements : string) (schema : ZodSchema) (modelName : AvailableModel)
    (chunksSeen chunksTotal : Z) (s : S)
    (issued : list ChatCompletionOptions) (s_end : S) : Prop :=
  let o1 := extraction_options instruction domElements schema modelName in
  let o2 r1 :=
    refine_options instruction previouslyExtractedContent r1 schema modelName in
  let o3 r2 :=
    metadata_options instruction r2 chunksSeen chunksTotal modelName in
  match st with
  | ExtractStage =>
      createChatCompletion c o1 s = (Err e, s_end) /\ issued = [o1]
  | RefineStage =>
      exists r1 s1,
        createChatCompletion c o1 s = (Ok r1, s1) /\
        createChatCompletion c (o2 r1) s1 = (Err e, s_end) /\
        issued = [o1; o2 r1]
  | MetadataStage =>
      exists r1 s1 r2 s2,
        createChatCompletion c o1 s = (Ok r1, s1) /\
        createChatCompletion c (o2 r1) s1 = (Ok r2, s2) /\
        createChatCompletion c (o3 r2) s2 = (Err e, s_end) /\
        issued = [o1; o2 r1; o3 r2]
  end.

End Vocabulary.

(** ** Collaborators for the examples *)

Module Scenario.

Definition quote : string := String (Ascii.ascii_of_nat 34) EmptyString.

Definition join (sep : string) (parts : list string) : string :=
  match parts with
  | [] => ""
  | p :: rest => fold_left (fun acc q => acc ++ sep ++ q) rest p
  end.

(** [JSON.stringify] on values whose strings need no escape. *)
Fixpoint stringify (v : JsVal) : option string :=
  match v with
  | JUndefined => None
  | JNull => Some "null"
  | JBool true => Some "true"
  | JBool false => Some "false"
  | JNum n => Some (NilZero.string_of_int (Z.to_int n))
  | JStr s => Some (quote ++ s ++ quote)
  | JArr items _ =>
      Some ("[" ++
            join ","
              (map (fun x => match stringify x with
                             | Some t => t
                             | None => "null"
                             end) items) ++ "]")
  | JObj own =>
      Some ("{" ++
            join ","
              ((fix members (l : list (string * JsVal)) : list string :=
                  match l with
                  | [] => []
                  | (k, x) :: rest =>
                      match stringify x with
                      | Some t => (quote ++ k ++ quote ++ ":" ++ t) :: members rest
                      | None => members rest
                      end
                  end) own) ++ "}")
  end.

(** [JSON.parse] on the payloads of the examples; any other text is
    refused, as is the last of these, which quotes neither key nor
    value. *)
Definition parse (payload : JsVal) : Result JsVal :=
  match payload with
  | JStr "{}" => Ok (JObj [])
  | JStr "[]" => Ok (JArr [] [])
  | JStr "null" => Ok JNull
  | JStr "true" => Ok (JBool true)
  | JStr "7" => Ok (JNum 7)
  | JStr "{method: click}" => Err (SyntaxError "Unexpected token m in JSON at position 1")
  | _ => Err (SyntaxError "Unexpected token")
  end.

(** [v > 0] on strings of decimal digits, on arrays of such (an array
    converts to the join of its items, so only an array of one item can be
    a number) and on plain objects (which convert to no number). *)
Fixpoint converted (v : JsVal) : Result bool :=
  match v with
  | JStr s =>
      match NilZero.uint_of_string s with
      | Some u => Ok (negb (N.eqb (N.of_uint u) 0))
      | None => Ok false
      end
  | JArr [JNum n] _ => Ok (0 <? n)
  | JArr [x] _ =>
      match x with
      | JStr _ | JArr _ _ => converted x
      | _ => Ok false
      end
  | _ => Ok false
  end.

Definition runtime : JsRuntime :=
  {| JSON_parse := parse;
     JSON_stringify := stringify;
     converted_gt_zero := converted |}.

Definition system (text : string) : ChatMessage :=
  {| role := System; content := text |}.
Definition user (text : string) : ChatMessage :=
  {| role := User; content := text |}.

Definition text_of (v : JsVal) : string :=
  match stringify v with
  | Some t => t
  | None => "undefined"
  end.

Definition optional (text : option string) : string :=
  match text with
  | Some t => t
  | None => "none"
  end.

Definition prompts : PromptBuilder :=
  {| actTools :=
       JArr [ JObj [("name", JStr "doAction")]; JObj [("name", JStr "skipSection")] ] [];
     AnnotatedScreenshotText := "This is a screenshot of the current page state.";
     buildActSystemPrompt := system "You are a browser automation assistant.";
     buildActUserPrompt := fun action steps domElements =>
       user ("Action: " ++ action ++ " Steps: " ++ optional steps ++
             " Elements: " ++ domElements);
     buildAskSystemPrompt := system "You are a helpful assistant.";
     buildAskUserPrompt := fun question => user question;
     buildExtractSystemPrompt := system "You are extracting content.";
     buildExtractUserPrompt := fun instruction domElements =>
       user ("Instruction: " ++ instruction ++ " DOM: " ++ domElements);
     buildObserveSystemPrompt := system "You are observing a page.";
     buildObserveUserMessage := fun instruction domElements =>
       user ("Instruction: " ++ instruction ++ " DOM: " ++ domElements);
     buildVerifyActCompletionSystemPrompt := system "You are verifying a goal.";
     buildVerifyActCompletionUserPrompt := fun goal steps domElements =>
       user ("Goal: " ++ goal ++ " Steps: " ++ steps ++ " DOM: " ++
             optional domElements);
     buildRefineSystemPrompt := system "You are refining extracted content.";
     buildRefineUserPrompt := fun instruction previous extracted =>
       user ("Instruction: " ++ instruction ++ " Previous: " ++ text_of previous ++
             " New: " ++ text_of extracted);
     buildMetadataSystemPrompt := system "You are reporting progress.";
     buildMetadataPrompt := fun instruction refined seen total =>
       user ("Instruction: " ++ instruction ++ " Extracted: " ++ text_of refined ++
             " Chunks: " ++ NilZero.string_of_int (Z.to_int seen) ++ "/" ++
             NilZero.string_of_int (Z.to_int total)) |}.

(** A client that plays a script: every request takes the next answer of
    the script, and [idle] once the script is over. *)
Definition scripted (idle : Result JsVal) : LLMClient (list (Result JsVal)) :=
  {| createChatCompletion := fun _ script =>
       match script with
       | [] => (idle, [])
       | answer :: rest => (answer, rest)
       end |}.

Definition provider (idle : Result JsVal) : LLMProvider (list (Result JsVal)) :=
  {| getClient := fun _ => scripted idle |}.

Definition start (script : list (Result JsVal)) : World (list (Result JsVal)) :=
  {| requests := []; logs := []; client_state := script |}.

(** A chat completion whose first choice carries the given content and
    tool invocations. *)
Definition completion (text : JsVal) (tool_calls : JsVal) : JsVal :=
  JObj [ ("choices",
          JArr [ JObj [ ("index", JNum 0);
                        ("message",
                         JObj [ ("role", JStr "assistant");
                                ("content", text);
                                ("tool_calls", tool_calls) ]) ] ] []) ].

Definition invocation (tool payload : string) : JsVal :=
  JObj [ ("type", JStr "function");
         ("function", JObj [ ("name", JStr tool); ("arguments", JStr payload) ]) ].

Definition exhausted : Result JsVal := Err (Rejection (JStr "script is over")).

Definition timeout : Exception := Rejection (JStr "request timed out").

Definition shot : Buffer := [Byte.x89; Byte.x50; Byte.x4e; Byte.x47].

(** The caller's schema [{ items: string[] }] of the two-chunk
    extraction scenario. *)
Definition itemsSchema : ZodSchema := ZObject [("items", ZArray ZString)].

Definition items (l : list string) : JsVal :=
  JObj [("items", JArr (map JStr l) [])].

Definition progress_report (text : string) (flag : bool) : JsVal :=
  JObj [("progress", JStr text); ("completed", JBool flag)].

Definition silent : JsVal := completion (JStr "I see nothing to do.") JUndefined.

Definition skipping : JsVal :=
  completion JNull (JArr [invocation "skipSection" "{}"] []).

Definition garbled : JsVal :=
  completion JNull (JArr [invocation "doAction" "{method: click}"] []).

Definition twofold : JsVal :=
  completion JNull
    (JArr [invocation "doAction" "7"; invocation "skipSection" "{}"] []).

(** An answer without [choices], one with no choice, one whose invocation
    has no [function], and one that selects the action tool. *)
Definition overloaded : JsVal := JObj [("error", JStr "overloaded")].

Definition choiceless : JsVal := JObj [("choices", JArr [] [])].

Definition nameless : JsVal :=
  completion JNull (JArr [JObj [("type", JStr "function")]] []).

Definition acting : JsVal :=
  completion JNull (JArr [invocation "doAction" "{}"] []).

(** A caller's schema that declares a [metadata] key of its own, and an
    object that passes it. *)
Definition taggedSchema : ZodSchema :=
  ZObject [("items", ZArray ZString); ("metadata", ZString)].

Definition tagged (l : list string) (tag : string) : JsVal :=
  JObj [("items", JArr (map JStr l) []); ("metadata", JStr tag)].

End Scenario.

(** ** Reasoning about runs *)

Unset Implicit Arguments.

Section Runs.

Context {S : Type}.

Lemma await_completion_run {c : LLMClient S} {options w answer s'} :
  createChatCompletion c options (client_state w) = (answer, s') ->
  await_completion c options w = (answer, requested w options s').
Proof.
  intros E. unfold await_completion. rewrite E. reflexivity.
Qed.

Lemma await_completion_next {c : LLMClient S} {options rs ls s answer s'} :
  createChatCompletion c options s = (answer, s') ->
  await_completion c options {| requests := rs; logs := ls; client_state := s |} =
  (answer, {| requests := rs ++ [options]; logs := ls; client_state := s' |}).
Proof.
  intros E. unfold await_completion. cbn [client_state requests logs].
  rewrite E. reflexivity.
Qed.

Lemma bind_ok {A B} {m : M S A} (k : A -> M S B) {w a w'} :
  m w = (Ok a, w') -> bind m k w = k a w'.
Proof. intros E. unfold bind. rewrite E. reflexivity. Qed.

Lemma bind_err {A B} {m : M S A} (k : A -> M S B) {w e w'} :
  m w = (Err e, w') -> bind m k w = (Err e, w').
Proof. intros E. unfold bind. rewrite E. reflexivity. Qed.

Lemma bind_lift_ok {A B} {r : Result A} (k : A -> M S B) (w : World S) {a} :
  r = Ok a -> bind (lift r) k w = k a w.
Proof. intros ->. reflexivity. Qed.

Lemma bind_lift_err {A B} {r : Result A} (k : A -> M S B) (w : World S) {e} :
  r = Err e -> bind (lift r) k w = (Err e, w).
Proof. intros ->. reflexivity. Qed.

End Runs.

(** ** Facts of the value model *)

Module JsFacts.

(** The guard [!v || typeof v !== "object"] holds of exactly the values
    that are no objects. *)
Lemma not_object_guard (v : JsVal) :
  negb (Js.truthy v) || negb (Js.typeof v =? "object")%string = negb (Js.is_object v).
Proof.
  destruct v as [| |b|n|s|items own|own]; try reflexivity.
  - destruct b; reflexivity.
  - simpl. rewrite orb_true_r. reflexivity.
  - simpl. rewrite orb_true_r. reflexivity.
Qed.

Lemma get_object_total (v : JsVal) (k : string) :
  Js.is_object v = true -> exists x, Js.get v k = Ok x.
Proof.
  destruct v; simpl; try discriminate; intros _.
  - destruct (k =? "length")%string; eauto.
  - eauto.
Qed.

(** A key that is no own property of an object reads as [undefined]. *)
Lemma get_not_own (v : JsVal) (k : string) :
  Js.is_object v = true ->
  k <> "length" ->
  Js.has_own v k = false ->
  Js.get v k = Ok JUndefined.
Proof.
  intros Hobj Hk Hown.
  destruct v as [| |b|n|s|items own|own]; try discriminate Hobj;
    simpl in *; unfold Js.own_or_undefined;
    destruct (Js.lookup k own); try discriminate Hown.
  - destruct (k =? "length")%string eqn:E; [|reflexivity].
    apply String.eqb_eq in E. contradiction.
  - reflexivity.
Qed.

Lemma lookup_store_same (k : string) (x : JsVal) own :
  Js.lookup k (Js.store k x own) = Some x.
Proof.
  induction own as [|[k' v'] rest IH]; simpl.
  - rewrite String.eqb_refl. reflexivity.
  - destruct (k' =? k)%string eqn:E; simpl.
    + rewrite String.eqb_refl. reflexivity.
    + rewrite E. exact IH.
Qed.

Lemma lookup_store_other (k k0 : string) (x : JsVal) own :
  k0 <> k -> Js.lookup k0 (Js.store k x own) = Js.lookup k0 own.
Proof.
  intros Hne. induction own as [|[k' v'] rest IH]; simpl.
  - destruct (k =? k0)%string eqn:E; [|reflexivity].
    apply String.eqb_eq in E. congruence.
  - destruct (k' =? k)%string eqn:E; simpl.
    + apply String.eqb_eq in E. subst k'.
      destruct (k =? k0)%string eqn:E0; [|reflexivity].
      apply String.eqb_eq in E0. congruence.
    + destruct (k' =? k0)%string; [reflexivity | exact IH].
Qed.

End JsFacts.

Module ZodFacts.

(** Only a plain object passes an object schema. *)
Lemma conforms_object (s : ZodSchema) (v : JsVal) shape :
  Zod.shape_of s = Some shape ->
  Zod.conforms s v = true ->
  exists own, v = JObj own.
Proof.
  induction s as [| | |item _|sh|inner IH text]; simpl; try discriminate.
  - intros _. destruct v; try discriminate. eauto.
  - exact IH.
Qed.

(** Passing an object schema is passing each declared key. *)
Lemma conforms_fields (s : ZodSchema) (own : list (string * JsVal)) shape :
  Zod.shape_of s = Some shape ->
  Zod.conforms s (JObj own) =
  forallb (fun f => Zod.conforms (snd f) (Js.own_or_undefined (fst f) own)) shape.
Proof.
  induction s as [| | |item _|sh|inner IH text]; simpl; try discriminate.
  - intros E. injection E as ->. induction shape as [|[k sk] rest IHs]; simpl.
    + reflexivity.
    + rewrite IHs. reflexivity.
  - exact IH.
Qed.

(** A key the schema does not declare can be assigned freely. *)
Lemma conforms_store (s : ZodSchema) (own : list (string * JsVal))
    (k : string) (x : JsVal) shape :
  Zod.shape_of s = Some shape ->
  Zod.declares s k = false ->
  Zod.conforms s (JObj own) = true ->
  Zod.conforms s (JObj (Js.store k x own)) = true.
Proof.
  intros Hshape Hdecl. unfold Zod.declares in Hdecl. rewrite Hshape in Hdecl.
  rewrite !(conforms_fields s _ shape Hshape).
  clear Hshape. induction shape as [|[k' sk] rest IH]; simpl in *.
  - reflexivity.
  - apply orb_false_iff in Hdecl. destruct Hdecl as [Hk Hrest].
    intros Hall. apply andb_true_iff in Hall. destruct Hall as [Hhere Htail].
    apply andb_true_iff. split; [|exact (IH Hrest Htail)].
    unfold Js.own_or_undefined in *.
    rewrite JsFacts.lookup_store_other; [exact Hhere|].
    intros ->. rewrite String.eqb_refl in Hk. discriminate.
Qed.

End ZodFacts.

(** ** The completion verifier *)

Section VerifyActCompletion.

Context {S : Type} {rt : JsRuntime} {pb : PromptBuilder}.

(** C3. Whatever value [response] the completion client answers with,
    [verifyActCompletion] returns and does not raise.  If [response] is
    not an object it logs the "Unexpected response format" diagnostic and
    returns [false]; if it is an object that has no [completed] property,
    or one that reads as [undefined], it logs the "Missing 'completed'
    field" diagnostic and returns [false]; otherwise it returns the value
    of the field and logs nothing. *)
Theorem verifyActCompletion_tolerates_malformed
    (goal steps : string) (llmProvider : LLMProvider S)
    (modelName : AvailableModel) (screenshot : option Buffer)
    (domElements : option string) (w : World S) (response : JsVal) (s' : S) :
  createChatCompletion (getClient llmProvider modelName)
    (verifyActCompletion_options goal steps modelName screenshot domElements)
    (client_state w) = (Ok response, s') ->
  let run :=
    verifyActCompletion goal steps llmProvider modelName screenshot domElements w in
  let w1 :=
    requested w
      (verifyActCompletion_options goal steps modelName screenshot domElements) s' in
  (exists v w', run = (Ok v, w')) /\
  (Js.is_object response = false ->
     run = (Ok (JBool false), logged w1 (unexpected_format_log response))) /\
  (Js.is_object response = true ->
     Js.has_own response "completed" = false ->
     run = (Ok (JBool false), logged w1 missing_field_log)) /\
  (Js.is_object response = true ->
     Js.get response "completed" = Ok JUndefined ->
     run = (Ok (JBool false), logged w1 missing_field_log)) /\
  (forall v, Js.is_object response = true ->
     Js.get response "completed" = Ok v -> v <> JUndefined ->
     run = (Ok v, w1)).
Proof.
  intros Hcall run w1.
  assert (Hrun : run =
    (if negb (Js.is_object response)
     then (Ok (JBool false), logged w1 (unexpected_format_log response))
     else match Js.get response "completed" with
          | Ok v => if Js.is_undefined v
                    then (Ok (JBool false), logged w1 missing_field_log)
                    else (Ok v, w1)
          | Err e => (Err e, w1)
          end)).
  { subst run. unfold verifyActCompletion.
    rewrite (bind_ok _ (await_completion_run Hcall)).
    rewrite JsFacts.not_object_guard.
    destruct (Js.is_object response) eqn:Hobj; cbn [negb].
    - destruct (JsFacts.get_object_total response "completed" Hobj) as [v Hv].
      rewrite (bind_lift_ok _ _ Hv). rewrite Hv.
      destruct (Js.is_undefined v); reflexivity.
    - reflexivity. }
  rewrite Hrun. repeat split.
  - destruct (Js.is_object response) eqn:Hobj; cbn [negb].
    + destruct (JsFacts.get_object_total response "completed" Hobj) as [v Hv].
      rewrite Hv. destruct (Js.is_undefined v); eauto.
    + eauto.
  - intros ->. reflexivity.
  - intros Hobj Hown.
    rewrite (JsFacts.get_not_own response "completed" Hobj
               ltac:(discriminate) Hown).
    rewrite Hobj. reflexivity.
  - intros -> ->. reflexivity.
  - intros v -> -> Hv. cbn [negb].
    destruct v; try reflexivity. congruence.
Qed.

End VerifyActCompletion.

(** ** The action resolver *)

Section Act.

Context {S : Type} {rt : JsRuntime} {pb : PromptBuilder}.

Lemma no_tool_invocations_guard (response : JsVal) :
  no_tool_invocations response = true ->
  exists toolCalls,
    tool_calls_of response = Ok toolCalls /\ has_tool_calls toolCalls = Ok false.
Proof.
  unfold no_tool_invocations.
  destruct (tool_calls_of response) as [tc|e]; [|discriminate].
  destruct tc as [| |b|n|s|items own|own]; try discriminate.
  - intros _. exists JUndefined. split; reflexivity.
  - intros _. exists JNull. split; reflexivity.
  - destruct items; [|discriminate]. intros _.
    exists (JArr [] own). split; reflexivity.
Qed.

Lemma has_tool_calls_nonempty (call : JsVal) (rest : list JsVal) own :
  has_tool_calls (JArr (call :: rest) own) = Ok true.
Proof.
  unfold has_tool_calls.
  change (Js.truthy (JArr (call :: rest) own)) with true.
  change (Js.get (JArr (call :: rest) own) "length")
    with (Ok (JNum (Z.of_nat (List.length (call :: rest))))).
  reflexivity.
Qed.

(** One attempt that finds tool invocations: a single request, then the
    answer is decided by the first invocation. *)
Lemma act_with_tool_calls (action domElements : string) (steps : option string)
    (llmProvider : LLMProvider S) (modelName : AvailableModel)
    (screenshot : option Buffer) (retries : option Z) (w : World S)
    (response toolCalls : JsVal) (s' : S) :
  createChatCompletion (getClient llmProvider modelName)
    (act_options action steps domElements modelName screenshot)
    (client_state w) = (Ok response, s') ->
  tool_calls_of response = Ok toolCalls ->
  has_tool_calls toolCalls = Ok true ->
  act action domElements steps llmProvider modelName screenshot retries w =
  (first_tool_call_result toolCalls,
   requested w (act_options action steps domElements modelName screenshot) s').
Proof.
  intros Hcall Htc Hsome. rewrite act_equation_1. cbv zeta.
  rewrite (bind_ok _ (await_completion_run Hcall)).
  rewrite (bind_lift_ok _ _ Htc). rewrite (bind_lift_ok _ _ Hsome).
  cbv iota. unfold first_tool_call_result, bind, lift, ret.
  destruct (first_function toolCalls) as [fn|e]; [|reflexivity].
  destruct (Js.get fn "name") as [fname|e]; [|reflexivity].
  destruct (Js.strict_eq_str fname "skipSection"); [reflexivity|].
  destruct (Js.get fn "arguments") as [payload|e]; reflexivity.
Qed.

(** One attempt that finds no tool invocation below the ceiling: the very
    same call again, without the screenshot and with one more retry. *)
Lemma act_retry_step (action domElements : string) (steps : option string)
    (llmProvider : LLMProvider S) (modelName : AvailableModel)
    (screenshot : option Buffer) (retries : option Z) (w : World S)
    (response : JsVal) (s' : S) :
  createChatCompletion (getClient llmProvider modelName)
    (act_options action steps domElements modelName screenshot)
    (client_state w) = (Ok response, s') ->
  no_tool_invocations response = true ->
  retries_or_default retries < 2 ->
  act action domElements steps llmProvider modelName screenshot retries w =
  act action domElements steps llmProvider modelName None
    (Some (retries_or_default retries + 1))
    (requested w (act_options action steps domElements modelName screenshot) s').
Proof.
  intros Hcall Hnone Hlt.
  destruct (no_tool_invocations_guard _ Hnone) as (tc & Htc & Hguard).
  rewrite (act_equation_1 action domElements steps llmProvider modelName screenshot
             retries). cbv zeta.
  rewrite (bind_ok _ (await_completion_run Hcall)).
  rewrite (bind_lift_ok _ _ Htc). rewrite (bind_lift_ok _ _ Hguard).
  cbv iota. destruct (Z_ge_dec (retries_or_default retries) 2); [lia|reflexivity].
Qed.

(** One attempt that finds no tool invocation at the ceiling. *)
Lemma act_ceiling (action domElements : string) (steps : option string)
    (llmProvider : LLMProvider S) (modelName : AvailableModel)
    (screenshot : option Buffer) (retries : option Z) (w : World S)
    (response : JsVal) (s' : S) :
  createChatCompletion (getClient llmProvider modelName)
    (act_options action steps domElements modelName screenshot)
    (client_state w) = (Ok response, s') ->
  no_tool_invocations response = true ->
  retries_or_default retries >= 2 ->
  act action domElements steps llmProvider modelName screenshot retries w =
  (Ok JNull,
   logged
     (requested w (act_options action steps domElements modelName screenshot) s')
     no_tool_calls_log).
Proof.
  intros Hcall Hnone Hge.
  destruct (no_tool_invocations_guard _ Hnone) as (tc & Htc & Hguard).
  rewrite act_equation_1. cbv zeta.
  rewrite (bind_ok _ (await_completion_run Hcall)).
  rewrite (bind_lift_ok _ _ Htc). rewrite (bind_lift_ok _ _ Hguard).
  cbv iota. destruct (Z_ge_dec (retries_or_default retries) 2); [reflexivity|lia].
Qed.

(** The whole run of [act] against a client that never selects a tool:
    the first request, one retry request without screenshot for every
    attempt the ceiling leaves, the diagnostic, [null]. *)
Lemma act_without_tool_invocations (Inv : S -> Prop)
    (action domElements : string) (steps : option string)
    (llmProvider : LLMProvider S) (modelName : AvailableModel) :
  always_answers (getClient llmProvider modelName) no_tool_invocations Inv ->
  forall (n : nat) (retries : option Z) (screenshot : option Buffer) (w : World S),
    attempts_left retries = n ->
    Inv (client_state w) ->
    exists s', Inv s' /\
      act action domElements steps llmProvider modelName screenshot retries w =
      (Ok JNull,
       {| requests :=
            requests w ++
            act_options action steps domElements modelName screenshot ::
            repeat (act_options action steps domElements modelName None) n;
          logs := logs w ++ [no_tool_calls_log];
          client_state := s' |}).
Proof.
  intros Hclient. induction n as [|n IH]; intros retries screenshot w Hn Hinv.
  - destruct (Hclient (act_options action steps domElements modelName screenshot)
                _ Hinv) as (response & s' & Hcall & Hnone & Hinv').
    exists s'. split; [exact Hinv'|].
    rewrite (act_ceiling _ _ _ _ _ _ _ _ _ _ Hcall Hnone); [reflexivity|].
    unfold attempts_left in Hn. lia.
  - destruct (Hclient (act_options action steps domElements modelName screenshot)
                _ Hinv) as (response & s1 & Hcall & Hnone & Hinv1).
    assert (Hlt : retries_or_default retries < 2)
      by (unfold attempts_left in Hn; lia).
    rewrite (act_retry_step _ _ _ _ _ _ _ _ _ _ Hcall Hnone Hlt).
    destruct (IH (Some (retries_or_default retries + 1)) None
                (requested w
                   (act_options action steps domElements modelName screenshot) s1))
      as (s' & Hinv' & Hrun).
    + unfold attempts_left in *. cbn [retries_or_default]. lia.
    + exact Hinv1.
    + exists s'. split; [exact Hinv'|]. rewrite Hrun.
      cbn [requested requests logs client_state repeat].
      rewrite <- app_assoc. reflexivity.
Qed.

(** C1. Against a completion client that answers every attempt with a
    response carrying no tool invocation, a call of [act] with the
    default retry counter issues exactly three completion requests (the
    first attempt and two retries), logs the "No tool calls found"
    diagnostic once and returns [null]. *)
Theorem act_gives_up_after_three_attempts (Inv : S -> Prop)
    (action domElements : string) (steps : option string)
    (llmProvider : LLMProvider S) (modelName : AvailableModel)
    (screenshot : option Buffer) (w : World S) :
  always_answers (getClient llmProvider modelName) no_tool_invocations Inv ->
  Inv (client_state w) ->
  exists s',
    act action domElements steps llmProvider modelName screenshot None w =
    (Ok JNull,
     {| requests :=
          requests w ++
          [ act_options action steps domElements modelName screenshot;
            act_options action steps domElements modelName None;
            act_options action steps domElements modelName None ];
        logs := logs w ++ [no_tool_calls_log];
        client_state := s' |}).
Proof.
  intros Hclient Hinv.
  destruct (act_without_tool_invocations Inv action domElements steps
              llmProvider modelName Hclient 2%nat None screenshot w
              eq_refl Hinv) as (s' & _ & Hrun).
  exists s'. exact Hrun.
Qed.

(** C9. Against a completion client that answers every attempt with a
    response carrying no tool invocation, a call of [act] with a
    screenshot attaches the image to its first request only: every
    request of a retry attempt has no image, because below the ceiling
    the call continues as the same call with one more retry and without
    the screenshot. *)
Theorem act_retries_drop_screenshot (Inv : S -> Prop)
    (action domElements : string) (steps : option string)
    (llmProvider : LLMProvider S) (modelName : AvailableModel)
    (shot : Buffer) (retries : option Z) (w : World S) :
  always_answers (getClient llmProvider modelName) no_tool_invocations Inv ->
  Inv (client_state w) ->
  let first := act_options action steps domElements modelName (Some shot) in
  let run :=
    act action domElements steps llmProvider modelName (Some shot) retries w in
  image first = Some {| buffer := shot; description := AnnotatedScreenshotText |} /\
  (exists w' retried,
     run = (Ok JNull, w') /\
     requests w' = (requests w ++ first :: retried)%list /\
     List.length retried = attempts_left retries /\
     Forall (fun options => image options = None) retried) /\
  (retries_or_default retries < 2 ->
   exists s1,
     run =
     act action domElements steps llmProvider modelName None
       (Some (retries_or_default retries + 1)) (requested w first s1)).
Proof.
  intros Hclient Hinv first run. split; [reflexivity|]. split.
  - destruct (act_without_tool_invocations Inv action domElements steps
                llmProvider modelName Hclient (attempts_left retries) retries
                (Some shot) w eq_refl Hinv) as (s' & _ & Hrun).
    eexists. exists (repeat (act_options action steps domElements modelName None)
                       (attempts_left retries)).
    split; [exact Hrun|]. split; [reflexivity|]. split.
    + apply repeat_length.
    + apply Forall_forall. intros options Hin.
      apply repeat_spec in Hin. subst options. reflexivity.
  - intros Hlt.
    destruct (Hclient first _ Hinv) as (response & s1 & Hcall & Hnone & _).
    exists s1. subst first run.
    exact (act_retry_step _ _ _ _ _ _ _ _ _ _ Hcall Hnone Hlt).
Qed.

(** C5. When the first invocation in the client's first response names
    the skip tool ["skipSection"], [act] returns [null] at once: one
    completion request, no retry, nothing logged. *)
Theorem act_skip_returns_null
    (action domElements : string) (steps : option string)
    (llmProvider : LLMProvider S) (modelName : AvailableModel)
    (screenshot : option Buffer) (retries : option Z) (w : World S)
    (response call fn : JsVal) (rest : list JsVal)
    (own : list (string * JsVal)) (s' : S) :
  createChatCompletion (getClient llmProvider modelName)
    (act_options action steps domElements modelName screenshot)
    (client_state w) = (Ok response, s') ->
  tool_calls_of response = Ok (JArr (call :: rest) own) ->
  Js.get call "function" = Ok fn ->
  Js.get fn "name" = Ok (JStr "skipSection") ->
  act action domElements steps llmProvider modelName screenshot retries w =
  (Ok JNull,
   {| requests :=
        requests w ++ [act_options action steps domElements modelName screenshot];
      logs := logs w;
      client_state := s' |}).
Proof.
  intros Hcall Htc Hfn Hname.
  rewrite (act_with_tool_calls _ _ _ _ _ _ retries _ _ _ _ Hcall Htc
             (has_tool_calls_nonempty call rest own)).
  unfold first_tool_call_result, first_function.
  cbn [Js.at_index nth]. rewrite Hfn, Hname. reflexivity.
Qed.

(** C6. When the first invocation in the client's response names a tool
    other than the skip tool and [JSON.parse] raises on its argument
    payload, that failure is what [act] raises: one completion request,
    no retry, nothing logged, no [null]. *)
Theorem act_parse_failure_propagates
    (action domElements : string) (steps : option string)
    (llmProvider : LLMProvider S) (modelName : AvailableModel)
    (screenshot : option Buffer) (retries : option Z) (w : World S)
    (response call fn fname payload : JsVal) (rest : list JsVal)
    (own : list (string * JsVal)) (s' : S) (e : Exception) :
  createChatCompletion (getClient llmProvider modelName)
    (act_options action steps domElements modelName screenshot)
    (client_state w) = (Ok response, s') ->
  tool_calls_of response = Ok (JArr (call :: rest) own) ->
  Js.get call "function" = Ok fn ->
  Js.get fn "name" = Ok fname ->
  Js.strict_eq_str fname "skipSection" = false ->
  Js.get fn "arguments" = Ok payload ->
  JSON_parse payload = Err e ->
  act action domElements steps llmProvider modelName screenshot retries w =
  (Err e,
   {| requests :=
        requests w ++ [act_options action steps domElements modelName screenshot];
      logs := logs w;
      client_state := s' |}).
Proof.
  intros Hcall Htc Hfn Hname Hskip Hargs Hparse.
  rewrite (act_with_tool_calls _ _ _ _ _ _ retries _ _ _ _ Hcall Htc
             (has_tool_calls_nonempty call rest own)).
  unfold first_tool_call_result, first_function.
  cbn [Js.at_index nth]. rewrite Hfn, Hname, Hskip, Hargs, Hparse. reflexivity.
Qed.

(** C10. When the client's response carries two or more tool
    invocations, the answer of [act] is decided by the first one alone:
    [null] if it names ["skipSection"], otherwise whatever [JSON.parse]
    makes of its argument payload; the invocations after the first are
    never read, and a single request is issued. *)
Theorem act_decides_on_first_invocation
    (action domElements : string) (steps : option string)
    (llmProvider : LLMProvider S) (modelName : AvailableModel)
    (screenshot : option Buffer) (retries : option Z) (w : World S)
    (response call second fn fname payload : JsVal) (rest : list JsVal)
    (own : list (string * JsVal)) (s' : S) :
  createChatCompletion (getClient llmProvider modelName)
    (act_options action steps domElements modelName screenshot)
    (client_state w) = (Ok response, s') ->
  tool_calls_of response = Ok (JArr (call :: second :: rest) own) ->
  Js.get call "function" = Ok fn ->
  Js.get fn "name" = Ok fname ->
  Js.get fn "arguments" = Ok payload ->
  act action domElements steps llmProvider modelName screenshot retries w =
  (if Js.strict_eq_str fname "skipSection" then Ok JNull else JSON_parse payload,
   {| requests :=
        requests w ++ [act_options action steps domElements modelName screenshot];
      logs := logs w;
      client_state := s' |}).
Proof.
  intros Hcall Htc Hfn Hname Hargs.
  rewrite (act_with_tool_calls _ _ _ _ _ _ retries _ _ _ _ Hcall Htc
             (has_tool_calls_nonempty call (second :: rest) own)).
  unfold first_tool_call_result, first_function.
  cbn [Js.at_index nth]. rewrite Hfn, Hname, Hargs. reflexivity.
Qed.

End Act.

(** ** The extraction pipeline *)

Section Extract.

Context {S : Type} {rt : JsRuntime} {pb : PromptBuilder}.

(** C2. For every object schema and every input, when the three
    completion calls answer and the client keeps its contract on stages 2
    and 3 (each answer passes the schema of its request), [extract]
    issues exactly the extract, refine and metadata requests in this
    order; the refine request is built from stage 1's answer as it came;
    and the value returned is stage 2's object with the answer of stage 3
    stored under [metadata] -- an object with a string [progress] and a
    boolean [completed] -- every other property being stage 2's, so that
    it still passes the caller's schema when this one does not declare
    [metadata] itself. *)
Theorem extract_returns_refined_with_metadata
    (instruction progress : string) (previouslyExtractedContent : JsVal)
    (domElements : string) (schema : ZodSchema)
    (shape : list (string * ZodSchema)) (llmProvider : LLMProvider S)
    (modelName : AvailableModel) (chunksSeen chunksTotal : Z) (w : World S)
    (r1 r2 r3 : JsVal) (s1 s2 s3 : S) :
  let c := getClient llmProvider modelName in
  let o1 := extraction_options instruction domElements schema modelName in
  let o2 :=
    refine_options instruction previouslyExtractedContent r1 schema modelName in
  let o3 := metadata_options instruction r2 chunksSeen chunksTotal modelName in
  Zod.shape_of schema = Some shape ->
  createChatCompletion c o1 (client_state w) = (Ok r1, s1) ->
  createChatCompletion c o2 s1 = (Ok r2, s2) ->
  Zod.conforms schema r2 = true ->
  createChatCompletion c o3 s2 = (Ok r3, s3) ->
  Zod.conforms metadataSchema r3 = true ->
  exists result text flag,
    extract instruction progress previouslyExtractedContent domElements schema
      llmProvider modelName chunksSeen chunksTotal w =
    (Ok result,
     {| requests := requests w ++ [o1; o2; o3];
        logs := logs w;
        client_state := s3 |}) /\
    messages o2 =
      [ buildRefineSystemPrompt;
        buildRefineUserPrompt instruction previouslyExtractedContent r1 ] /\
    response_model o3 = Some {| name := "Metadata"; schema := metadataSchema |} /\
    Js.set r2 "metadata" r3 = Ok result /\
    Js.get result "metadata" = Ok r3 /\
    (forall k, k <> "metadata" -> Js.get result k = Js.get r2 k) /\
    Js.get r3 "progress" = Ok (JStr text) /\
    Js.get r3 "completed" = Ok (JBool flag) /\
    (Zod.declares schema "metadata" = false -> Zod.conforms schema result = true).
Proof.
  intros c o1 o2 o3 Hshape H1 H2 Hc2 H3 Hc3.
  destruct (ZodFacts.conforms_object schema r2 shape Hshape Hc2) as [own ->].
  assert (Hmeta : exists mown text flag,
            r3 = JObj mown /\
            Js.own_or_undefined "progress" mown = JStr text /\
            Js.own_or_undefined "completed" mown = JBool flag).
  { destruct r3 as [| |b|n|str|items mown|mown]; try discriminate Hc3.
    simpl in Hc3. apply andb_true_iff in Hc3. destruct Hc3 as [Hp Hrest].
    apply andb_true_iff in Hrest. destruct Hrest as [Hd _].
    destruct (Js.own_or_undefined "progress" mown) eqn:Ep; try discriminate Hp.
    destruct (Js.own_or_undefined "completed" mown) eqn:Ed; try discriminate Hd.
    eauto 6. }
  destruct Hmeta as (mown & text & flag & -> & Hp & Hd).
  exists (JObj (Js.store "metadata" (JObj mown) own)), text, flag.
  split.
  { unfold extract. fold c. fold o1.
    rewrite (bind_ok _ (await_completion_run H1)). fold o2. unfold requested.
    rewrite (bind_ok _ (await_completion_next H2)). fold o3.
    rewrite (bind_ok _ (await_completion_next H3)).
    unfold lift. cbn [Js.set]. rewrite <- !app_assoc. reflexivity. }
  split; [reflexivity|]. split; [reflexivity|]. split; [reflexivity|].
  split.
  { cbn [Js.get]. unfold Js.own_or_undefined.
    rewrite JsFacts.lookup_store_same. reflexivity. }
  split.
  { intros k Hk. cbn [Js.get]. unfold Js.own_or_undefined.
    rewrite JsFacts.lookup_store_other by exact Hk. reflexivity. }
  split; [cbn [Js.get]; rewrite Hp; reflexivity|].
  split; [cbn [Js.get]; rewrite Hd; reflexivity|].
  intros Hdecl. exact (ZodFacts.conforms_store schema own "metadata" _ shape
                         Hshape Hdecl Hc2).
Qed.

(** C7. When one of the three completion calls of [extract] fails, the
    call of [extract] fails with the same exception and returns no
    value; the requests it has issued are those of the stages up to the
    failing one, each once: no stage is retried and none follows the
    failure. *)
Theorem extract_failure_propagates
    (instruction progress : string) (previouslyExtractedContent : JsVal)
    (domElements : string) (schema : ZodSchema) (llmProvider : LLMProvider S)
    (modelName : AvailableModel) (chunksSeen chunksTotal : Z) (w : World S)
    (st : Stage) (e : Exception) (issued : list ChatCompletionOptions)
    (s_end : S) :
  fails_at (getClient llmProvider modelName) st e instruction
    previouslyExtractedContent domElements schema modelName chunksSeen
    chunksTotal (client_state w) issued s_end ->
  extract instruction progress previouslyExtractedContent domElements schema
    llmProvider modelName chunksSeen chunksTotal w =
  (Err e,
   {| requests := requests w ++ issued;
      logs := logs w;
      client_state := s_end |}) /\
  List.length issued = stage_number st.
Proof.
  unfold fails_at, extract. destruct st.
  - intros [H1 ->]. split; [|reflexivity].
    rewrite (bind_err _ (await_completion_run H1)). reflexivity.
  - intros (r1 & s1 & H1 & H2 & ->). split; [|reflexivity].
    rewrite (bind_ok _ (await_completion_run H1)). unfold requested.
    rewrite (bind_err _ (await_completion_next H2)).
    rewrite <- app_assoc. reflexivity.
  - intros (r1 & s1 & r2 & s2 & H1 & H2 & H3 & ->). split; [|reflexivity].
    rewrite (bind_ok _ (await_completion_run H1)). unfold requested.
    rewrite (bind_ok _ (await_completion_next H2)).
    rewrite (bind_err _ (await_completion_next H3)).
    rewrite <- !app_assoc. reflexivity.
Qed.

End Extract.

(** ** The observation resolver *)

Section Observe.

Context {S : Type} {rt : JsRuntime} {pb : PromptBuilder}.

(** C4. [observe] raises when the completion client answers [null] or
    [undefined]; it returns the answer as it came when this is an object
    whose [elements] are an empty array, or an empty array itself.  In
    each case a single request has been issued. *)
Theorem observe_empty_is_not_failure
    (instruction domElements : string) (llmProvider : LLMProvider S)
    (modelName : AvailableModel) (image : option Buffer) (w : World S)
    (response : JsVal) (s' : S) :
  createChatCompletion (getClient llmProvider modelName)
    (observe_options instruction domElements modelName image)
    (client_state w) = (Ok response, s') ->
  let run := observe instruction domElements llmProvider modelName image w in
  let w1 :=
    requested w (observe_options instruction domElements modelName image) s' in
  (response = JNull \/ response = JUndefined ->
     run = (Err (Error "no response when finding a selector"), w1)) /\
  (forall own, Js.get response "elements" = Ok (JArr [] own) ->
     run = (Ok response, w1)) /\
  (forall own, response = JArr [] own -> run = (Ok response, w1)).
Proof.
  intros Hcall run w1. subst run. unfold observe.
  rewrite (bind_ok _ (await_completion_run Hcall)). fold w1.
  repeat split.
  - intros [-> | ->]; reflexivity.
  - intros own Hel.
    destruct response as [| |b|n|str|items o|o]; simpl in Hel;
      try discriminate Hel; reflexivity.
  - intros own ->. reflexivity.
Qed.

End Observe.

(** ** The free-form asker *)

Section Ask.

Context {S : Type} {rt : JsRuntime} {pb : PromptBuilder}.

(** C8. For every question, [ask] issues exactly one completion request,
    which carries no output schema, no tools, no tool choice and no
    image, and logs nothing.  A failure of the client is the failure of
    [ask]; an answer whose first choice has a message yields the
    [content] of that message as it is. *)
Theorem ask_single_unconstrained_request
    (question : string) (llmProvider : LLMProvider S)
    (modelName : AvailableModel) (w : World S)
    (answer : Result JsVal) (s' : S) :
  createChatCompletion (getClient llmProvider modelName)
    (ask_options question modelName) (client_state w) = (answer, s') ->
  let run := ask question llmProvider modelName w in
  snd run =
    {| requests := requests w ++ [ask_options question modelName];
       logs := logs w;
       client_state := s' |} /\
  response_model (ask_options question modelName) = None /\
  tools (ask_options question modelName) = None /\
  tool_choice (ask_options question modelName) = None /\
  image (ask_options question modelName) = None /\
  (forall e, answer = Err e -> fst run = Err e) /\
  (forall response choices choice msg text,
     answer = Ok response ->
     Js.get response "choices" = Ok choices ->
     Js.at_index choices 0 = Ok choice ->
     Js.get choice "message" = Ok msg ->
     Js.get msg "content" = Ok text ->
     fst run = Ok text).
Proof.
  intros Hcall run. subst run. unfold ask.
  destruct answer as [response|e].
  - rewrite (bind_ok _ (await_completion_run Hcall)).
    repeat split; try reflexivity.
    + intros e He. discriminate He.
    + intros r choices choice msg text Hr Hch Hidx Hmsg Htext.
      injection Hr as <-. unfold lift, content_of.
      rewrite Hch, Hidx, Hmsg, Htext. reflexivity.
  - rewrite (bind_err _ (await_completion_run Hcall)).
    repeat split; try reflexivity.
    + intros e' He. injection He as <-. reflexivity.
    + intros r choices choice msg text Hr. discriminate Hr.
Qed.

End Ask.

(** ** The theorems at concrete inputs *)

Section Witnesses.

Local Existing Instance Scenario.runtime.
Local Existing Instance Scenario.prompts.

Import Scenario.

Lemma silent_client_never_selects_a_tool :
  always_answers (getClient (provider (Ok silent)) "gpt-4o") no_tool_invocations
    (fun script => script = []).
Proof.
  intros options script ->. exists silent, []. repeat split.
Defined.

Lemma act_gives_up_after_three_attempts_witness :
  exists s',
    act "click the submit button" "7: button Submit" None (provider (Ok silent))
      "gpt-4o" (Some shot) None (start []) =
    (Ok JNull,
     {| requests :=
          [ act_options "click the submit button" None "7: button Submit" "gpt-4o"
              (Some shot);
            act_options "click the submit button" None "7: button Submit" "gpt-4o"
              None;
            act_options "click the submit button" None "7: button Submit" "gpt-4o"
              None ];
        logs := [no_tool_calls_log];
        client_state := s' |}).
Proof.
  exact (act_gives_up_after_three_attempts (fun script => script = [])
           "click the submit button" "7: button Submit" None
           (provider (Ok silent)) "gpt-4o" (Some shot) (start [])
           silent_client_never_selects_a_tool eq_refl).
Defined.

Lemma act_retries_drop_screenshot_witness :
  exists w' retried,
    act "click the submit button" "7: button Submit" None (provider (Ok silent))
      "gpt-4o" (Some shot) None (start []) = (Ok JNull, w') /\
    requests w' =
      act_options "click the submit button" None "7: button Submit" "gpt-4o"
        (Some shot) :: retried /\
    List.length retried = 2%nat /\
    Forall (fun options => image options = None) retried.
Proof.
  exact (proj1 (proj2
           (act_retries_drop_screenshot (fun script => script = [])
              "click the submit button" "7: button Submit" None
              (provider (Ok silent)) "gpt-4o" shot None (start [])
              silent_client_never_selects_a_tool eq_refl))).
Defined.

Lemma act_skip_returns_null_witness :
  act "accept the cookies" "3: link Home" (Some "opened the page")
    (provider exhausted) "gpt-4o" (Some shot) None (start [Ok skipping]) =
  (Ok JNull,
   {| requests :=
        [ act_options "accept the cookies" (Some "opened the page") "3: link Home"
            "gpt-4o" (Some shot) ];
      logs := [];
      client_state := [] |}).
Proof.
  exact (act_skip_returns_null "accept the cookies" "3: link Home"
           (Some "opened the page") (provider exhausted) "gpt-4o" (Some shot)
           None (start [Ok skipping]) skipping (invocation "skipSection" "{}")
           (JObj [("name", JStr "skipSection"); ("arguments", JStr "{}")])
           [] [] [] eq_refl eq_refl eq_refl eq_refl).
Defined.

Lemma act_parse_failure_propagates_witness :
  act "click the submit button" "7: button Submit" None (provider exhausted)
    "gpt-4o" None None (start [Ok garbled]) =
  (Err (SyntaxError "Unexpected token m in JSON at position 1"),
   {| requests :=
        [ act_options "click the submit button" None "7: button Submit" "gpt-4o"
            None ];
      logs := [];
      client_state := [] |}).
Proof.
  exact (act_parse_failure_propagates "click the submit button"
           "7: button Submit" None (provider exhausted) "gpt-4o" None None
           (start [Ok garbled]) garbled (invocation "doAction" "{method: click}")
           (JObj [("name", JStr "doAction"); ("arguments", JStr "{method: click}")])
           (JStr "doAction") (JStr "{method: click}") [] [] []
           (SyntaxError "Unexpected token m in JSON at position 1")
           eq_refl eq_refl eq_refl eq_refl eq_refl eq_refl eq_refl).
Defined.

Lemma act_decides_on_first_invocation_witness :
  act "click the submit button" "7: button Submit" None (provider exhausted)
    "gpt-4o" None (Some 1) (start [Ok twofold]) =
  (Ok (JNum 7),
   {| requests :=
        [ act_options "click the submit button" None "7: button Submit" "gpt-4o"
            None ];
      logs := [];
      client_state := [] |}).
Proof.
  exact (act_decides_on_first_invocation "click the submit button"
           "7: button Submit" None (provider exhausted) "gpt-4o" None (Some 1)
           (start [Ok twofold]) twofold (invocation "doAction" "7")
           (invocation "skipSection" "{}")
           (JObj [("name", JStr "doAction"); ("arguments", JStr "7")])
           (JStr "doAction") (JStr "7") [] [] []
           eq_refl eq_refl eq_refl eq_refl eq_refl).
Defined.

Lemma verifyActCompletion_tolerates_malformed_witness :
  verifyActCompletion "submit the form" "clicked submit" (provider exhausted)
    "gpt-4o" None None (start [Ok (JStr "done")]) =
  (Ok (JBool false),
   {| requests :=
        [verifyActCompletion_options "submit the form" "clicked submit" "gpt-4o"
           None None];
      logs := [unexpected_format_log (JStr "done")];
      client_state := [] |}) /\
  verifyActCompletion "submit the form" "clicked submit" (provider exhausted)
    "gpt-4o" None None (start [Ok (JObj [("status", JStr "ok")])]) =
  (Ok (JBool false),
   {| requests :=
        [verifyActCompletion_options "submit the form" "clicked submit" "gpt-4o"
           None None];
      logs := [missing_field_log];
      client_state := [] |}) /\
  verifyActCompletion "submit the form" "clicked submit" (provider exhausted)
    "gpt-4o" None None (start [Ok (JObj [("completed", JBool true)])]) =
  (Ok (JBool true),
   {| requests :=
        [verifyActCompletion_options "submit the form" "clicked submit" "gpt-4o"
           None None];
      logs := [];
      client_state := [] |}).
Proof.
  pose (claim := fun response =>
    verifyActCompletion_tolerates_malformed "submit the form" "clicked submit"
      (provider exhausted) "gpt-4o" None None (start [Ok response]) response []
      eq_refl).
  split; [|split].
  - exact (proj1 (proj2 (claim (JStr "done"))) eq_refl).
  - exact (proj1 (proj2 (proj2 (claim (JObj [("status", JStr "ok")]))))
             eq_refl eq_refl).
  - refine (proj2 (proj2 (proj2 (proj2 (claim (JObj [("completed", JBool true)])))))
              (JBool true) eq_refl eq_refl _).
    discriminate.
Defined.

Lemma observe_empty_is_not_failure_witness :
  observe "find the search box" "1: div" (provider exhausted) "gpt-4o" None
    (start [Ok JNull]) =
  (Err (Error "no response when finding a selector"),
   {| requests := [observe_options "find the search box" "1: div" "gpt-4o" None];
      logs := [];
      client_state := [] |}) /\
  observe "find the search box" "1: div" (provider exhausted) "gpt-4o" None
    (start [Ok (JObj [("elements", JArr [] [])])]) =
  (Ok (JObj [("elements", JArr [] [])]),
   {| requests := [observe_options "find the search box" "1: div" "gpt-4o" None];
      logs := [];
      client_state := [] |}).
Proof.
  pose (claim := fun response =>
    observe_empty_is_not_failure "find the search box" "1: div"
      (provider exhausted) "gpt-4o" None (start [Ok response]) response []
      eq_refl).
  split.
  - exact (proj1 (claim JNull) (or_introl eq_refl)).
  - exact (proj1 (proj2 (claim (JObj [("elements", JArr [] [])]))) [] eq_refl).
Defined.

Lemma ask_single_unconstrained_request_witness :
  fst (ask "What is the capital of France?" (provider exhausted) "gpt-4o"
         (start [Ok (completion (JStr "Paris") JUndefined)])) =
  Ok (JStr "Paris") /\
  fst (ask "What is the capital of France?" (provider exhausted) "gpt-4o"
         (start [Err timeout])) =
  Err timeout.
Proof.
  pose (claim := fun answer =>
    ask_single_unconstrained_request "What is the capital of France?"
      (provider exhausted) "gpt-4o" (start [answer]) answer [] eq_refl).
  split.
  - refine (proj2 (proj2 (proj2 (proj2 (proj2 (proj2
              (claim (Ok (completion (JStr "Paris") JUndefined))))))))
              _ _ _ _ (JStr "Paris") eq_refl eq_refl eq_refl eq_refl eq_refl).
  - exact (proj1 (proj2 (proj2 (proj2 (proj2 (proj2 (claim (Err timeout)))))))
             timeout eq_refl).
Defined.

Lemma extract_returns_refined_with_metadata_witness :
  extract "list the items" "nothing yet" (items []) "1: li A" itemsSchema
    (provider exhausted) "gpt-4o" 1 2
    (start [ Ok (items ["A"]); Ok (items ["A"]);
             Ok (progress_report "found 1 item" false) ]) =
  (Ok (JObj [ ("items", JArr [JStr "A"] []);
              ("metadata", progress_report "found 1 item" false) ]),
   {| requests :=
        [ extraction_options "list the items" "1: li A" itemsSchema "gpt-4o";
          refine_options "list the items" (items []) (items ["A"]) itemsSchema
            "gpt-4o";
          metadata_options "list the items" (items ["A"]) 1 2 "gpt-4o" ];
      logs := [];
      client_state := [] |}).
Proof.
  destruct (extract_returns_refined_with_metadata "list the items" "nothing yet"
              (items []) "1: li A" itemsSchema [("items", ZArray ZString)]
              (provider exhausted) "gpt-4o" 1 2
              (start [ Ok (items ["A"]); Ok (items ["A"]);
                       Ok (progress_report "found 1 item" false) ])
              (items ["A"]) (items ["A"]) (progress_report "found 1 item" false)
              [ Ok (items ["A"]); Ok (progress_report "found 1 item" false) ]
              [ Ok (progress_report "found 1 item" false) ] []
              eq_refl eq_refl eq_refl eq_refl eq_refl eq_refl)
    as (result & text & flag & Hrun & _ & _ & Hset & _).
  injection Hset as <-. exact Hrun.
Defined.

Lemma extract_failure_propagates_witness :
  extract "list the items" "nothing yet" (items []) "1: li A" itemsSchema
    (provider exhausted) "gpt-4o" 1 2
    (start [Ok (items ["A"]); Err timeout; Ok (items ["B"])]) =
  (Err timeout,
   {| requests :=
        [ extraction_options "list the items" "1: li A" itemsSchema "gpt-4o";
          refine_options "list the items" (items []) (items ["A"]) itemsSchema
            "gpt-4o" ];
      logs := [];
      client_state := [Ok (items ["B"])] |}).
Proof.
  refine (proj1
            (extract_failure_propagates "list the items" "nothing yet" (items [])
               "1: li A" itemsSchema (provider exhausted) "gpt-4o" 1 2
               (start [Ok (items ["A"]); Err timeout; Ok (items ["B"])])
               RefineStage timeout
               [ extraction_options "list the items" "1: li A" itemsSchema "gpt-4o";
                 refine_options "list the items" (items []) (items ["A"])
                   itemsSchema "gpt-4o" ]
               [Ok (items ["B"])] _)).
  exists (items ["A"]), [Err timeout; Ok (items ["B"])].
  repeat split.
Defined.

End Witnesses.

(** ** Further properties of the completion verifier *)

Section VerifyActCompletionMore.

Context {S : Type} {rt : JsRuntime} {pb : PromptBuilder}.

(** X1. [verifyActCompletion] has no handler around its completion call:
    when the client fails, the call fails with the same exception, after
    its single request and with nothing logged. *)
Theorem verifyActCompletion_client_failure_propagates
    (goal steps : string) (llmProvider : LLMProvider S)
    (modelName : AvailableModel) (screenshot : option Buffer)
    (domElements : option string) (w : World S) (e : Exception) (s' : S) :
  createChatCompletion (getClient llmProvider modelName)
    (verifyActCompletion_options goal steps modelName screenshot domElements)
    (client_state w) = (Err e, s') ->
  verifyActCompletion goal steps llmProvider modelName screenshot domElements w =
  (Err e,
   {| requests :=
        requests w ++
        [verifyActCompletion_options goal steps modelName screenshot domElements];
      logs := logs w;
      client_state := s' |}).
Proof.
  intros Hcall. unfold verifyActCompletion.
  rewrite (bind_err _ (await_completion_run Hcall)). reflexivity.
Qed.

(** X2. When the client's answer passes the schema that the request
    carries ([{ completed: boolean }]), [verifyActCompletion] returns that
    boolean and logs nothing. *)
Theorem verifyActCompletion_returns_validated_flag
    (goal steps : string) (llmProvider : LLMProvider S)
    (modelName : AvailableModel) (screenshot : option Buffer)
    (domElements : option string) (w : World S) (response : JsVal) (s' : S) :
  createChatCompletion (getClient llmProvider modelName)
    (verifyActCompletion_options goal steps modelName screenshot domElements)
    (client_state w) = (Ok response, s') ->
  Zod.conforms verificationSchema response = true ->
  exists flag : bool,
    Js.get response "completed" = Ok (JBool flag) /\
    verifyActCompletion goal steps llmProvider modelName screenshot domElements w =
    (Ok (JBool flag),
     {| requests :=
          requests w ++
          [verifyActCompletion_options goal steps modelName screenshot domElements];
        logs := logs w;
        client_state := s' |}).
Proof.
  intros Hcall Hconf.
  destruct response as [| |b|n|str|items own|own]; try discriminate Hconf.
  simpl in Hconf. apply andb_true_iff in Hconf. destruct Hconf as [Hflag _].
  destruct (Js.own_or_undefined "completed" own) as [| |flag|n|str|items o|o] eqn:E;
    try discriminate Hflag.
  exists flag. split; [cbn [Js.get]; rewrite E; reflexivity|].
  unfold verifyActCompletion.
  rewrite (bind_ok _ (await_completion_run Hcall)).
  cbn [Js.truthy Js.typeof negb orb String.eqb Ascii.eqb Bool.eqb Js.get].
  unfold bind, lift. rewrite E. reflexivity.
Qed.

End VerifyActCompletionMore.

(** ** Further properties of the action resolver *)

Section ActMore.

Context {S : Type} {rt : JsRuntime} {pb : PromptBuilder}.

(** An attempt whose completion call fails. *)
Lemma act_attempt_fails (action domElements : string) (steps : option string)
    (llmProvider : LLMProvider S) (modelName : AvailableModel)
    (screenshot : option Buffer) (retries : option Z) (w : World S)
    (e : Exception) (s' : S) :
  createChatCompletion (getClient llmProvider modelName)
    (act_options action steps domElements modelName screenshot)
    (client_state w) = (Err e, s') ->
  act action domElements steps llmProvider modelName screenshot retries w =
  (Err e, requested w (act_options action steps domElements modelName screenshot) s').
Proof.
  intros Hcall. rewrite act_equation_1. cbv zeta.
  rewrite (bind_err _ (await_completion_run Hcall)). reflexivity.
Qed.

(** An attempt whose answer has no first choice with a message. *)
Lemma act_attempt_malformed (action domElements : string) (steps : option string)
    (llmProvider : LLMProvider S) (modelName : AvailableModel)
    (screenshot : option Buffer) (retries : option Z) (w : World S)
    (response : JsVal) (e : Exception) (s' : S) :
  createChatCompletion (getClient llmProvider modelName)
    (act_options action steps domElements modelName screenshot)
    (client_state w) = (Ok response, s') ->
  tool_calls_of response = Err e ->
  act action domElements steps llmProvider modelName screenshot retries w =
  (Err e, requested w (act_options action steps domElements modelName screenshot) s').
Proof.
  intros Hcall Htc. rewrite act_equation_1. cbv zeta.
  rewrite (bind_ok _ (await_completion_run Hcall)).
  rewrite (bind_lift_err _ _ Htc). reflexivity.
Qed.

(** An attempt on which the guard itself raises. *)
Lemma act_attempt_guard_raises (action domElements : string) (steps : option string)
    (llmProvider : LLMProvider S) (modelName : AvailableModel)
    (screenshot : option Buffer) (retries : option Z) (w : World S)
    (response toolCalls : JsVal) (e : Exception) (s' : S) :
  createChatCompletion (getClient llmProvider modelName)
    (act_options action steps domElements modelName screenshot)
    (client_state w) = (Ok response, s') ->
  tool_calls_of response = Ok toolCalls ->
  has_tool_calls toolCalls = Err e ->
  act action domElements steps llmProvider modelName screenshot retries w =
  (Err e, requested w (act_options action steps domElements modelName screenshot) s').
Proof.
  intros Hcall Htc Hguard. rewrite act_equation_1. cbv zeta.
  rewrite (bind_ok _ (await_completion_run Hcall)).
  rewrite (bind_lift_ok _ _ Htc). rewrite (bind_lift_err _ _ Hguard). reflexivity.
Qed.

(** An attempt on which the guard says no, below and at the ceiling. *)
Lemma act_attempt_retries (action domElements : string) (steps : option string)
    (llmProvider : LLMProvider S) (modelName : AvailableModel)
    (screenshot : option Buffer) (retries : option Z) (w : World S)
    (response toolCalls : JsVal) (s' : S) :
  createChatCompletion (getClient llmProvider modelName)
    (act_options action steps domElements modelName screenshot)
    (client_state w) = (Ok response, s') ->
  tool_calls_of response = Ok toolCalls ->
  has_tool_calls toolCalls = Ok false ->
  retries_or_default retries < 2 ->
  act action domElements steps llmProvider modelName screenshot retries w =
  act action domElements steps llmProvider modelName None
    (Some (retries_or_default retries + 1))
    (requested w (act_options action steps domElements modelName screenshot) s').
Proof.
  intros Hcall Htc Hguard Hlt.
  rewrite (act_equation_1 action domElements steps llmProvider modelName screenshot
             retries). cbv zeta.
  rewrite (bind_ok _ (await_completion_run Hcall)).
  rewrite (bind_lift_ok _ _ Htc). rewrite (bind_lift_ok _ _ Hguard).
  cbv iota. destruct (Z_ge_dec (retries_or_default retries) 2); [lia|reflexivity].
Qed.

Lemma act_attempt_gives_up (action domElements : string) (steps : option string)
    (llmProvider : LLMProvider S) (modelName : AvailableModel)
    (screenshot : option Buffer) (retries : option Z) (w : World S)
    (response toolCalls : JsVal) (s' : S) :
  createChatCompletion (getClient llmProvider modelName)
    (act_options action steps domElements modelName screenshot)
    (client_state w) = (Ok response, s') ->
  tool_calls_of response = Ok toolCalls ->
  has_tool_calls toolCalls = Ok false ->
  retries_or_default retries >= 2 ->
  act action domElements steps llmProvider modelName screenshot retries w =
  (Ok JNull,
   logged
     (requested w (act_options action steps domElements modelName screenshot) s')
     no_tool_calls_log).
Proof.
  intros Hcall Htc Hguard Hge. rewrite act_equation_1. cbv zeta.
  rewrite (bind_ok _ (await_completion_run Hcall)).
  rewrite (bind_lift_ok _ _ Htc). rewrite (bind_lift_ok _ _ Hguard).
  cbv iota. destruct (Z_ge_dec (retries_or_default retries) 2); [reflexivity|lia].
Qed.

(** X3. Whatever the completion client does, a call of [act] issues its
    first request and then at most as many retry requests as the ceiling
    leaves to its retry counter, each without image; it logs nothing, or
    the "No tool calls found" diagnostic once, and then it returns
    [null]. *)
Theorem act_requests_are_bounded
    (action domElements : string) (steps : option string)
    (llmProvider : LLMProvider S) (modelName : AvailableModel)
    (screenshot : option Buffer) (retries : option Z) (w : World S) :
  exists (k : nat) (outcome : Result JsVal) (w' : World S),
    act action domElements steps llmProvider modelName screenshot retries w =
      (outcome, w') /\
    (k <= attempts_left retries)%nat /\
    requests w' =
      (requests w ++
       act_options action steps domElements modelName screenshot ::
       repeat (act_options action steps domElements modelName None) k)%list /\
    (logs w' = logs w \/
     (logs w' = (logs w ++ [no_tool_calls_log])%list /\ outcome = Ok JNull)).
Proof.
  remember (attempts_left retries) as n eqn:Hn.
  revert retries screenshot w Hn.
  induction n as [|n IH]; intros retries screenshot w Hn;
    destruct (createChatCompletion (getClient llmProvider modelName)
                (act_options action steps domElements modelName screenshot)
                (client_state w)) as [[response|e] s1] eqn:Hcall;
    try (exists 0%nat; eexists; eexists;
         split; [exact (act_attempt_fails _ _ _ _ _ _ retries _ _ _ Hcall)|];
         split; [lia|]; split; [reflexivity|left; reflexivity]);
    (destruct (tool_calls_of response) as [tc|e] eqn:Htc;
     [|exists 0%nat; eexists; eexists;
       split; [exact (act_attempt_malformed _ _ _ _ _ _ retries _ _ _ _ Hcall Htc)|];
       split; [lia|]; split; [reflexivity|left; reflexivity]]);
    (destruct (has_tool_calls tc) as [[|]|e] eqn:Hguard;
     [ exists 0%nat; eexists; eexists;
       split; [exact (act_with_tool_calls _ _ _ _ _ _ retries _ _ _ _ Hcall Htc Hguard)|];
       split; [lia|]; split; [reflexivity|left; reflexivity]
     | idtac
     | exists 0%nat; eexists; eexists;
       split; [exact (act_attempt_guard_raises _ _ _ _ _ _ retries _ _ _ _ _
                        Hcall Htc Hguard)|];
       split; [lia|]; split; [reflexivity|left; reflexivity] ]).
  - exists 0%nat. eexists. eexists.
    split; [refine (act_attempt_gives_up _ _ _ _ _ _ retries _ _ _ _ Hcall Htc Hguard _)|].
    + unfold attempts_left in Hn. lia.
    + split; [lia|]. split; [reflexivity|]. right. split; reflexivity.
  - destruct (Z_ge_dec (retries_or_default retries) 2) as [Hge|Hlt].
    + exists 0%nat. eexists. eexists.
      split; [exact (act_attempt_gives_up _ _ _ _ _ _ retries _ _ _ _
                       Hcall Htc Hguard Hge)|].
      split; [lia|]. split; [reflexivity|]. right. split; reflexivity.
    + assert (Hlt' : retries_or_default retries < 2) by lia.
      destruct (IH (Some (retries_or_default retries + 1)) None
                  (requested w
                     (act_options action steps domElements modelName screenshot) s1))
        as (k & outcome & w' & Hrun & Hk & Hreq & Hlog).
      { unfold attempts_left in *. cbn [retries_or_default]. lia. }
      exists (Datatypes.S k), outcome, w'.
      split.
      { rewrite (act_attempt_retries _ _ _ _ _ _ retries _ _ _ _
                   Hcall Htc Hguard Hlt'). exact Hrun. }
      split; [lia|]. split.
      { rewrite Hreq. cbn [requested requests repeat].
        rewrite <- app_assoc. reflexivity. }
      exact Hlog.
Qed.

(** X4. The ceiling is one on the retry counter, not on the number of
    attempts: against a client that never selects a tool, a call that
    passes the counter [r] issues one request when [r] is 2 or more and
    [3 - r] requests otherwise (more than three when [r] is negative),
    before it logs the diagnostic and returns [null]. *)
Theorem act_attempts_follow_retry_counter (Inv : S -> Prop)
    (action domElements : string) (steps : option string)
    (llmProvider : LLMProvider S) (modelName : AvailableModel)
    (screenshot : option Buffer) (r : Z) (w : World S) :
  always_answers (getClient llmProvider modelName) no_tool_invocations Inv ->
  Inv (client_state w) ->
  exists issued s',
    act action domElements steps llmProvider modelName screenshot (Some r) w =
    (Ok JNull,
     {| requests := requests w ++ issued;
        logs := logs w ++ [no_tool_calls_log];
        client_state := s' |}) /\
    Z.of_nat (List.length issued) = Z.max 1 (3 - r).
Proof.
  intros Hclient Hinv.
  destruct (act_without_tool_invocations Inv action domElements steps
              llmProvider modelName Hclient (attempts_left (Some r)) (Some r)
              screenshot w eq_refl Hinv) as (s' & _ & Hrun).
  eexists. exists s'. split; [exact Hrun|].
  cbn [List.length]. rewrite repeat_length.
  unfold attempts_left. cbn [retries_or_default]. lia.
Qed.

(** X5. [act] has no handler around its completion call: when the client
    fails on the first attempt, the call fails with the same exception,
    after one request, without retry and with nothing logged. *)
Theorem act_client_failure_propagates
    (action domElements : string) (steps : option string)
    (llmProvider : LLMProvider S) (modelName : AvailableModel)
    (screenshot : option Buffer) (retries : option Z) (w : World S)
    (e : Exception) (s' : S) :
  createChatCompletion (getClient llmProvider modelName)
    (act_options action steps domElements modelName screenshot)
    (client_state w) = (Err e, s') ->
  act action domElements steps llmProvider modelName screenshot retries w =
  (Err e,
   {| requests :=
        requests w ++ [act_options action steps domElements modelName screenshot];
      logs := logs w;
      client_state := s' |}).
Proof.
  intros Hcall.
  exact (act_attempt_fails _ _ _ _ _ _ retries _ _ _ Hcall).
Qed.

(** X6. When the first invocation of the answer names a tool other than
    the skip tool and [JSON.parse] accepts its argument payload, [act]
    returns the parsed value as it is -- no check of its shape -- after
    one request and with nothing logged. *)
Theorem act_returns_parsed_arguments
    (action domElements : string) (steps : option string)
    (llmProvider : LLMProvider S) (modelName : AvailableModel)
    (screenshot : option Buffer) (retries : option Z) (w : World S)
    (response call fn fname payload parsed : JsVal) (rest : list JsVal)
    (own : list (string * JsVal)) (s' : S) :
  createChatCompletion (getClient llmProvider modelName)
    (act_options action steps domElements modelName screenshot)
    (client_state w) = (Ok response, s') ->
  tool_calls_of response = Ok (JArr (call :: rest) own) ->
  Js.get call "function" = Ok fn ->
  Js.get fn "name" = Ok fname ->
  Js.strict_eq_str fname "skipSection" = false ->
  Js.get fn "arguments" = Ok payload ->
  JSON_parse payload = Ok parsed ->
  act action domElements steps llmProvider modelName screenshot retries w =
  (Ok parsed,
   {| requests :=
        requests w ++ [act_options action steps domElements modelName screenshot];
      logs := logs w;
      client_state := s' |}).
Proof.
  intros Hcall Htc Hfn Hname Hskip Hargs Hparse.
  rewrite (act_with_tool_calls _ _ _ _ _ _ retries _ _ _ _ Hcall Htc
             (has_tool_calls_nonempty call rest own)).
  unfold first_tool_call_result, first_function.
  cbn [Js.at_index nth]. rewrite Hfn, Hname, Hskip, Hargs, Hparse. reflexivity.
Qed.

(** X7. A retry can succeed: when the first answer carries no tool
    invocation, the counter is below the ceiling and the answer to the
    retry carries some, the call ends as the retry does, after two
    requests of which the second has no image, and nothing is logged. *)
Theorem act_retry_then_resolves
    (action domElements : string) (steps : option string)
    (llmProvider : LLMProvider S) (modelName : AvailableModel)
    (screenshot : option Buffer) (retries : option Z) (w : World S)
    (first second toolCalls : JsVal) (s1 s2 : S) :
  createChatCompletion (getClient llmProvider modelName)
    (act_options action steps domElements modelName screenshot)
    (client_state w) = (Ok first, s1) ->
  no_tool_invocations first = true ->
  retries_or_default retries < 2 ->
  createChatCompletion (getClient llmProvider modelName)
    (act_options action steps domElements modelName None) s1 = (Ok second, s2) ->
  tool_calls_of second = Ok toolCalls ->
  has_tool_calls toolCalls = Ok true ->
  act action domElements steps llmProvider modelName screenshot retries w =
  (first_tool_call_result toolCalls,
   {| requests :=
        requests w ++
        [ act_options action steps domElements modelName screenshot;
          act_options action steps domElements modelName None ];
      logs := logs w;
      client_state := s2 |}) /\
  image (act_options action steps domElements modelName None) = None.
Proof.
  intros H1 Hnone Hlt H2 Htc Hsome. split; [|reflexivity].
  rewrite (act_retry_step _ _ _ _ _ _ _ _ _ _ H1 Hnone Hlt).
  rewrite (act_with_tool_calls action domElements steps llmProvider modelName None
             (Some (retries_or_default retries + 1))
             (requested w
                (act_options action steps domElements modelName screenshot) s1)
             second toolCalls s2 H2 Htc Hsome).
  unfold requested. cbn [requests logs client_state].
  rewrite <- app_assoc. reflexivity.
Qed.

(** X8. An answer that has no [choices], or an empty array of them, is
    not taken for "no tool invocation": reading the first choice's
    message raises a type error, which is what [act] raises, after one
    request and without retry. *)
Theorem act_raises_on_missing_choices
    (action domElements : string) (steps : option string)
    (llmProvider : LLMProvider S) (modelName : AvailableModel)
    (screenshot : option Buffer) (retries : option Z) (w : World S)
    (response : JsVal) (s' : S) :
  createChatCompletion (getClient llmProvider modelName)
    (act_options action steps domElements modelName screenshot)
    (client_state w) = (Ok response, s') ->
  let run :=
    act action domElements steps llmProvider modelName screenshot retries w in
  let w1 :=
    {| requests :=
         requests w ++ [act_options action steps domElements modelName screenshot];
       logs := logs w;
       client_state := s' |} in
  (Js.get response "choices" = Ok JUndefined ->
     run = (Err (TypeError "0"), w1)) /\
  (forall own, Js.get response "choices" = Ok (JArr [] own) ->
     run = (Err (TypeError "message"), w1)).
Proof.
  intros Hcall run w1. split.
  - intros Hch.
    refine (act_attempt_malformed _ _ _ _ _ _ retries _ _ _ _ Hcall _).
    unfold tool_calls_of. rewrite Hch. reflexivity.
  - intros own Hch.
    refine (act_attempt_malformed _ _ _ _ _ _ retries _ _ _ _ Hcall _).
    unfold tool_calls_of. rewrite Hch. reflexivity.
Qed.

(** X9. An invocation without a [function] is neither skipped nor
    retried: reading the name of its function raises a type error, which
    is what [act] raises, after one request. *)
Theorem act_raises_on_missing_function
    (action domElements : string) (steps : option string)
    (llmProvider : LLMProvider S) (modelName : AvailableModel)
    (screenshot : option Buffer) (retries : option Z) (w : World S)
    (response call : JsVal) (rest : list JsVal)
    (own : list (string * JsVal)) (s' : S) :
  createChatCompletion (getClient llmProvider modelName)
    (act_options action steps domElements modelName screenshot)
    (client_state w) = (Ok response, s') ->
  tool_calls_of response = Ok (JArr (call :: rest) own) ->
  Js.get call "function" = Ok JUndefined ->
  act action domElements steps llmProvider modelName screenshot retries w =
  (Err (TypeError "name"),
   {| requests :=
        requests w ++ [act_options action steps domElements modelName screenshot];
      logs := logs w;
      client_state := s' |}).
Proof.
  intros Hcall Htc Hfn.
  rewrite (act_with_tool_calls _ _ _ _ _ _ retries _ _ _ _ Hcall Htc
             (has_tool_calls_nonempty call rest own)).
  unfold first_tool_call_result, first_function.
  cbn [Js.at_index nth]. rewrite Hfn. reflexivity.
Qed.

End ActMore.

(** ** Further properties of the extraction pipeline *)

Section ExtractMore.

Context {S : Type} {rt : JsRuntime} {pb : PromptBuilder}.

(** A declared key whose value fails its schema fails the object
    schema. *)
Lemma conforms_refuted (s : ZodSchema) (own : list (string * JsVal))
    (shape : list (string * ZodSchema)) (k : string) (sk : ZodSchema) :
  Zod.shape_of s = Some shape ->
  In (k, sk) shape ->
  Zod.conforms sk (Js.own_or_undefined k own) = false ->
  Zod.conforms s (JObj own) = false.
Proof.
  intros Hshape Hin Hfail. rewrite (ZodFacts.conforms_fields s own shape Hshape).
  destruct (forallb _ shape) eqn:Hall; [|reflexivity].
  rewrite forallb_forall in Hall. specialize (Hall (k, sk) Hin).
  cbn [fst snd] in Hall. congruence.
Qed.

(** X10. The answer of stage 2 is used unchecked: when it is [null] or
    [undefined], the metadata request is still issued, built from that
    answer, and the assignment of [metadata] then raises a type error,
    which is what [extract] raises after its three requests. *)
Theorem extract_raises_on_null_refined
    (instruction progress : string) (previouslyExtractedContent : JsVal)
    (domElements : string) (schema : ZodSchema) (llmProvider : LLMProvider S)
    (modelName : AvailableModel) (chunksSeen chunksTotal : Z) (w : World S)
    (r1 r2 r3 : JsVal) (s1 s2 s3 : S) :
  let c := getClient llmProvider modelName in
  let o1 := extraction_options instruction domElements schema modelName in
  let o2 :=
    refine_options instruction previouslyExtractedContent r1 schema modelName in
  let o3 := metadata_options instruction r2 chunksSeen chunksTotal modelName in
  r2 = JNull \/ r2 = JUndefined ->
  createChatCompletion c o1 (client_state w) = (Ok r1, s1) ->
  createChatCompletion c o2 s1 = (Ok r2, s2) ->
  createChatCompletion c o3 s2 = (Ok r3, s3) ->
  extract instruction progress previouslyExtractedContent domElements schema
    llmProvider modelName chunksSeen chunksTotal w =
  (Err (TypeError "metadata"),
   {| requests := requests w ++ [o1; o2; o3];
      logs := logs w;
      client_state := s3 |}).
Proof.
  intros c o1 o2 o3 Hnull H1 H2 H3. unfold extract. fold c. fold o1.
  rewrite (bind_ok _ (await_completion_run H1)). fold o2. unfold requested.
  rewrite (bind_ok _ (await_completion_next H2)). fold o3.
  rewrite (bind_ok _ (await_completion_next H3)).
  unfold lift. rewrite <- !app_assoc.
  destruct Hnull as [-> | ->]; reflexivity.
Qed.

(** X11. The key [metadata] is not reserved against the caller's schema:
    when this declares a [metadata] key of its own that the answer of
    stage 3 does not pass, the value [extract] returns carries the answer
    of stage 3 under that key and so fails the caller's schema, although
    the answer of stage 2 passed it. *)
Theorem extract_overwrites_declared_metadata
    (instruction progress : string) (previouslyExtractedContent : JsVal)
    (domElements : string) (schema sm : ZodSchema)
    (shape : list (string * ZodSchema)) (llmProvider : LLMProvider S)
    (modelName : AvailableModel) (chunksSeen chunksTotal : Z) (w : World S)
    (r1 r2 r3 : JsVal) (s1 s2 s3 : S) :
  let c := getClient llmProvider modelName in
  let o1 := extraction_options instruction domElements schema modelName in
  let o2 :=
    refine_options instruction previouslyExtractedContent r1 schema modelName in
  let o3 := metadata_options instruction r2 chunksSeen chunksTotal modelName in
  Zod.shape_of schema = Some shape ->
  In ("metadata", sm) shape ->
  createChatCompletion c o1 (client_state w) = (Ok r1, s1) ->
  createChatCompletion c o2 s1 = (Ok r2, s2) ->
  Zod.conforms schema r2 = true ->
  createChatCompletion c o3 s2 = (Ok r3, s3) ->
  Zod.conforms sm r3 = false ->
  exists result,
    extract instruction progress previouslyExtractedContent domElements schema
      llmProvider modelName chunksSeen chunksTotal w =
    (Ok result,
     {| requests := requests w ++ [o1; o2; o3];
        logs := logs w;
        client_state := s3 |}) /\
    Js.get result "metadata" = Ok r3 /\
    Zod.conforms schema result = false.
Proof.
  intros c o1 o2 o3 Hshape Hin H1 H2 Hc2 H3 Hfail.
  destruct (ZodFacts.conforms_object schema r2 shape Hshape Hc2) as [own ->].
  exists (JObj (Js.store "metadata" r3 own)).
  assert (Hread : Js.own_or_undefined "metadata" (Js.store "metadata" r3 own) = r3).
  { unfold Js.own_or_undefined. rewrite JsFacts.lookup_store_same. reflexivity. }
  split.
  { unfold extract. fold c. fold o1.
    rewrite (bind_ok _ (await_completion_run H1)). fold o2. unfold requested.
    rewrite (bind_ok _ (await_completion_next H2)). fold o3.
    rewrite (bind_ok _ (await_completion_next H3)).
    unfold lift. cbn [Js.set]. rewrite <- !app_assoc. reflexivity. }
  split.
  { cbn [Js.get]. rewrite Hread. reflexivity. }
  apply (conforms_refuted schema _ shape "metadata" sm Hshape Hin).
  rewrite Hread. exact Hfail.
Qed.

(** X12. Whatever the completion client does, [extract] issues at least
    one and at most three requests, the first of which is the extraction
    request, and logs nothing. *)
Theorem extract_requests_are_bounded
    (instruction progress : string) (previouslyExtractedContent : JsVal)
    (domElements : string) (schema : ZodSchema) (llmProvider : LLMProvider S)
    (modelName : AvailableModel) (chunksSeen chunksTotal : Z) (w : World S) :
  exists (outcome : Result JsVal) (w' : World S)
         (later : list ChatCompletionOptions),
    extract instruction progress previouslyExtractedContent domElements schema
      llmProvider modelName chunksSeen chunksTotal w = (outcome, w') /\
    requests w' =
      (requests w ++
       extraction_options instruction domElements schema modelName :: later)%list /\
    (List.length later <= 2)%nat /\
    logs w' = logs w.
Proof.
  unfold extract.
  destruct (createChatCompletion (getClient llmProvider modelName)
              (extraction_options instruction domElements schema modelName)
              (client_state w)) as [[r1|e] s1] eqn:H1.
  2:{ rewrite (bind_err _ (await_completion_run H1)).
      eexists. eexists. exists []. repeat split. simpl. lia. }
  rewrite (bind_ok _ (await_completion_run H1)). unfold requested.
  destruct (createChatCompletion (getClient llmProvider modelName)
              (refine_options instruction previouslyExtractedContent r1 schema
                 modelName) s1) as [[r2|e] s2] eqn:H2.
  2:{ rewrite (bind_err _ (await_completion_next H2)).
      eexists. eexists. eexists. split; [reflexivity|].
      cbn [requests logs]. rewrite <- app_assoc.
      split; [reflexivity|]. split; [simpl; lia|reflexivity]. }
  rewrite (bind_ok _ (await_completion_next H2)).
  destruct (createChatCompletion (getClient llmProvider modelName)
              (metadata_options instruction r2 chunksSeen chunksTotal modelName)
              s2) as [[r3|e] s3] eqn:H3.
  2:{ rewrite (bind_err _ (await_completion_next H3)).
      eexists. eexists. eexists. split; [reflexivity|].
      cbn [requests logs]. rewrite <- !app_assoc.
      split; [reflexivity|]. split; [simpl; lia|reflexivity]. }
  rewrite (bind_ok _ (await_completion_next H3)). unfold lift.
  eexists. eexists. eexists. split; [reflexivity|].
  cbn [requests logs snd]. rewrite <- !app_assoc.
  split; [reflexivity|]. split; [simpl; lia|reflexivity].
Qed.

End ExtractMore.

(** ** Further properties of the observation resolver and the asker *)

Section ObserveAskMore.

Context {S : Type} {rt : JsRuntime} {pb : PromptBuilder}.

(** X13. [observe] tests its answer for truth and for nothing else: the
    answers it refuses are [undefined], [null], [false], [0] and the empty
    string, and every other answer is returned as it came, whether or not
    it has the [elements] that the schema of the request asks for. *)
Theorem observe_refuses_falsy_only
    (instruction domElements : string) (llmProvider : LLMProvider S)
    (modelName : AvailableModel) (image : option Buffer) (w : World S)
    (response : JsVal) (s' : S) :
  createChatCompletion (getClient llmProvider modelName)
    (observe_options instruction domElements modelName image)
    (client_state w) = (Ok response, s') ->
  let run := observe instruction domElements llmProvider modelName image w in
  let w1 :=
    {| requests :=
         requests w ++ [observe_options instruction domElements modelName image];
       logs := logs w;
       client_state := s' |} in
  let refused :=
    response = JUndefined \/ response = JNull \/ response = JBool false \/
    response = JNum 0 \/ response = JStr "" in
  (refused -> run = (Err (Error "no response when finding a selector"), w1)) /\
  (~ refused -> run = (Ok response, w1)).
Proof.
  intros Hcall run w1 refused. subst run refused. unfold observe.
  rewrite (bind_ok _ (await_completion_run Hcall)). split.
  - intros [-> | [-> | [-> | [-> | ->]]]]; reflexivity.
  - intros Hnot.
    destruct response as [| |[|]|n|str|items own|own]; try reflexivity;
      try (exfalso; apply Hnot; auto 6; fail).
    + destruct n; try reflexivity. exfalso. apply Hnot. auto 6.
    + destruct str; try reflexivity. exfalso. apply Hnot. auto 6.
Qed.

(** X14. [observe] has no handler around its completion call: when the
    client fails, the call fails with the same exception and not with its
    own "no response" error, after its single request. *)
Theorem observe_client_failure_propagates
    (instruction domElements : string) (llmProvider : LLMProvider S)
    (modelName : AvailableModel) (image : option Buffer) (w : World S)
    (e : Exception) (s' : S) :
  createChatCompletion (getClient llmProvider modelName)
    (observe_options instruction domElements modelName image)
    (client_state w) = (Err e, s') ->
  observe instruction domElements llmProvider modelName image w =
  (Err e,
   {| requests :=
        requests w ++ [observe_options instruction domElements modelName image];
      logs := logs w;
      client_state := s' |}).
Proof.
  intros Hcall. unfold observe.
  rewrite (bind_err _ (await_completion_run Hcall)). reflexivity.
Qed.

(** X15. [ask] reads the content of the first choice unguarded: an answer
    that has no [choices], or an empty array of them, or a first choice
    without [message], makes it raise a type error after its single
    request. *)
Theorem ask_raises_on_missing_choices
    (question : string) (llmProvider : LLMProvider S)
    (modelName : AvailableModel) (w : World S) (response : JsVal) (s' : S) :
  createChatCompletion (getClient llmProvider modelName)
    (ask_options question modelName) (client_state w) = (Ok response, s') ->
  let run := ask question llmProvider modelName w in
  let w1 :=
    {| requests := requests w ++ [ask_options question modelName];
       logs := logs w;
       client_state := s' |} in
  (Js.get response "choices" = Ok JUndefined ->
     run = (Err (TypeError "0"), w1)) /\
  (forall own, Js.get response "choices" = Ok (JArr [] own) ->
     run = (Err (TypeError "message"), w1)) /\
  (forall choice rest own,
     Js.get response "choices" = Ok (JArr (choice :: rest) own) ->
     Js.get choice "message" = Ok JUndefined ->
     run = (Err (TypeError "content"), w1)).
Proof.
  intros Hcall run w1. subst run. unfold ask.
  rewrite (bind_ok _ (await_completion_run Hcall)). unfold lift, content_of.
  repeat split.
  - intros ->. reflexivity.
  - intros own ->. reflexivity.
  - intros choice rest own -> Hmsg. cbn [Js.at_index nth]. rewrite Hmsg.
    reflexivity.
Qed.

End ObserveAskMore.

(** ** The further properties at concrete inputs *)

Section WitnessesMore.

Local Existing Instance Scenario.runtime.
Local Existing Instance Scenario.prompts.

Import Scenario.

Lemma verifyActCompletion_client_failure_propagates_witness :
  verifyActCompletion "submit the form" "clicked submit" (provider exhausted)
    "gpt-4o" (Some shot) None (start [Err timeout]) =
  (Err timeout,
   {| requests :=
        [verifyActCompletion_options "submit the form" "clicked submit" "gpt-4o"
           (Some shot) None];
      logs := [];
      client_state := [] |}).
Proof.
  exact (verifyActCompletion_client_failure_propagates "submit the form"
           "clicked submit" (provider exhausted) "gpt-4o" (Some shot) None
           (start [Err timeout]) timeout [] eq_refl).
Defined.

Lemma verifyActCompletion_returns_validated_flag_witness :
  exists flag : bool,
    Js.get (JObj [("completed", JBool true)]) "completed" = Ok (JBool flag) /\
    verifyActCompletion "submit the form" "clicked submit" (provider exhausted)
      "gpt-4o" None (Some "1: form") (start [Ok (JObj [("completed", JBool true)])]) =
    (Ok (JBool flag),
     {| requests :=
          [verifyActCompletion_options "submit the form" "clicked submit" "gpt-4o"
             None (Some "1: form")];
        logs := [];
        client_state := [] |}).
Proof.
  exact (verifyActCompletion_returns_validated_flag "submit the form"
           "clicked submit" (provider exhausted) "gpt-4o" None (Some "1: form")
           (start [Ok (JObj [("completed", JBool true)])])
           (JObj [("completed", JBool true)]) [] eq_refl eq_refl).
Defined.

Lemma act_attempts_follow_retry_counter_witness :
  exists issued s',
    act "click the submit button" "7: button Submit" None (provider (Ok silent))
      "gpt-4o" None (Some (-1)) (start []) =
    (Ok JNull,
     {| requests := issued; logs := [no_tool_calls_log]; client_state := s' |}) /\
    Z.of_nat (List.length issued) = 4.
Proof.
  exact (act_attempts_follow_retry_counter (fun script => script = [])
           "click the submit button" "7: button Submit" None
           (provider (Ok silent)) "gpt-4o" None (-1) (start [])
           silent_client_never_selects_a_tool eq_refl).
Defined.

Lemma act_client_failure_propagates_witness :
  act "click the submit button" "7: button Submit" None (provider exhausted)
    "gpt-4o" (Some shot) None (start [Err timeout; Ok acting]) =
  (Err timeout,
   {| requests :=
        [ act_options "click the submit button" None "7: button Submit" "gpt-4o"
            (Some shot) ];
      logs := [];
      client_state := [Ok acting] |}).
Proof.
  exact (act_client_failure_propagates "click the submit button"
           "7: button Submit" None (provider exhausted) "gpt-4o" (Some shot) None
           (start [Err timeout; Ok acting]) timeout [Ok acting] eq_refl).
Defined.

Lemma act_returns_parsed_arguments_witness :
  act "click the submit button" "7: button Submit" None (provider exhausted)
    "gpt-4o" None None (start [Ok acting]) =
  (Ok (JObj []),
   {| requests :=
        [ act_options "click the submit button" None "7: button Submit" "gpt-4o"
            None ];
      logs := [];
      client_state := [] |}).
Proof.
  exact (act_returns_parsed_arguments "click the submit button"
           "7: button Submit" None (provider exhausted) "gpt-4o" None None
           (start [Ok acting]) acting (invocation "doAction" "{}")
           (JObj [("name", JStr "doAction"); ("arguments", JStr "{}")])
           (JStr "doAction") (JStr "{}") (JObj []) [] [] []
           eq_refl eq_refl eq_refl eq_refl eq_refl eq_refl eq_refl).
Defined.

Lemma act_retry_then_resolves_witness :
  act "click the submit button" "7: button Submit" None (provider exhausted)
    "gpt-4o" (Some shot) None (start [Ok silent; Ok acting]) =
  (Ok (JObj []),
   {| requests :=
        [ act_options "click the submit button" None "7: button Submit" "gpt-4o"
            (Some shot);
          act_options "click the submit button" None "7: button Submit" "gpt-4o"
            None ];
      logs := [];
      client_state := [] |}).
Proof.
  exact (proj1
           (act_retry_then_resolves "click the submit button" "7: button Submit"
              None (provider exhausted) "gpt-4o" (Some shot) None
              (start [Ok silent; Ok acting]) silent acting
              (JArr [invocation "doAction" "{}"] []) [Ok acting] []
              eq_refl eq_refl eq_refl eq_refl eq_refl eq_refl)).
Defined.

Lemma act_raises_on_missing_choices_witness :
  act "click the submit button" "7: button Submit" None (provider exhausted)
    "gpt-4o" None None (start [Ok overloaded]) =
  (Err (TypeError "0"),
   {| requests :=
        [ act_options "click the submit button" None "7: button Submit" "gpt-4o"
            None ];
      logs := [];
      client_state := [] |}) /\
  act "click the submit button" "7: button Submit" None (provider exhausted)
    "gpt-4o" None None (start [Ok choiceless]) =
  (Err (TypeError "message"),
   {| requests :=
        [ act_options "click the submit button" None "7: button Submit" "gpt-4o"
            None ];
      logs := [];
      client_state := [] |}).
Proof.
  pose (claim := fun response =>
    act_raises_on_missing_choices "click the submit button" "7: button Submit"
      None (provider exhausted) "gpt-4o" None None (start [Ok response])
      response [] eq_refl).
  split.
  - exact (proj1 (claim overloaded) eq_refl).
  - exact (proj2 (claim choiceless) [] eq_refl).
Defined.

Lemma act_raises_on_missing_function_witness :
  act "click the submit button" "7: button Submit" None (provider exhausted)
    "gpt-4o" None None (start [Ok nameless; Ok acting]) =
  (Err (TypeError "name"),
   {| requests :=
        [ act_options "click the submit button" None "7: button Submit" "gpt-4o"
            None ];
      logs := [];
      client_state := [Ok acting] |}).
Proof.
  exact (act_raises_on_missing_function "click the submit button"
           "7: button Submit" None (provider exhausted) "gpt-4o" None None
           (start [Ok nameless; Ok acting]) nameless
           (JObj [("type", JStr "function")]) [] [] [Ok acting]
           eq_refl eq_refl eq_refl).
Defined.

Lemma extract_raises_on_null_refined_witness :
  extract "list the items" "nothing yet" (items []) "1: li A" itemsSchema
    (provider exhausted) "gpt-4o" 1 2
    (start [ Ok (items ["A"]); Ok JNull;
             Ok (progress_report "found nothing" false) ]) =
  (Err (TypeError "metadata"),
   {| requests :=
        [ extraction_options "list the items" "1: li A" itemsSchema "gpt-4o";
          refine_options "list the items" (items []) (items ["A"]) itemsSchema
            "gpt-4o";
          metadata_options "list the items" JNull 1 2 "gpt-4o" ];
      logs := [];
      client_state := [] |}).
Proof.
  exact (extract_raises_on_null_refined "list the items" "nothing yet" (items [])
           "1: li A" itemsSchema (provider exhausted) "gpt-4o" 1 2
           (start [ Ok (items ["A"]); Ok JNull;
                    Ok (progress_report "found nothing" false) ])
           (items ["A"]) JNull (progress_report "found nothing" false)
           [Ok JNull; Ok (progress_report "found nothing" false)]
           [Ok (progress_report "found nothing" false)] []
           (or_introl eq_refl) eq_refl eq_refl eq_refl).
Defined.

Lemma extract_overwrites_declared_metadata_witness :
  exists result,
    extract "list the items" "nothing yet" (tagged [] "page 0") "1: li A"
      taggedSchema (provider exhausted) "gpt-4o" 1 2
      (start [ Ok (tagged ["A"] "page 1"); Ok (tagged ["A"] "page 1");
               Ok (progress_report "found 1 item" false) ]) =
    (Ok result,
     {| requests :=
          [ extraction_options "list the items" "1: li A" taggedSchema "gpt-4o";
            refine_options "list the items" (tagged [] "page 0")
              (tagged ["A"] "page 1") taggedSchema "gpt-4o";
            metadata_options "list the items" (tagged ["A"] "page 1") 1 2 "gpt-4o" ];
        logs := [];
        client_state := [] |}) /\
    Js.get result "metadata" = Ok (progress_report "found 1 item" false) /\
    Zod.conforms taggedSchema result = false.
Proof.
  refine (extract_overwrites_declared_metadata "list the items" "nothing yet"
            (tagged [] "page 0") "1: li A" taggedSchema ZString
            [("items", ZArray ZString); ("metadata", ZString)]
            (provider exhausted) "gpt-4o" 1 2
            (start [ Ok (tagged ["A"] "page 1"); Ok (tagged ["A"] "page 1");
                     Ok (progress_report "found 1 item" false) ])
            (tagged ["A"] "page 1") (tagged ["A"] "page 1")
            (progress_report "found 1 item" false)
            [ Ok (tagged ["A"] "page 1"); Ok (progress_report "found 1 item" false) ]
            [ Ok (progress_report "found 1 item" false) ] []
            eq_refl _ eq_refl eq_refl eq_refl eq_refl eq_refl).
  right. left. reflexivity.
Defined.

Lemma observe_refuses_falsy_only_witness :
  observe "find the search box" "1: div" (provider exhausted) "gpt-4o" None
    (start [Ok (JStr "")]) =
  (Err (Error "no response when finding a selector"),
   {| requests := [observe_options "find the search box" "1: div" "gpt-4o" None];
      logs := [];
      client_state := [] |}) /\
  observe "find the search box" "1: div" (provider exhausted) "gpt-4o" None
    (start [Ok (JStr "none")]) =
  (Ok (JStr "none"),
   {| requests := [observe_options "find the search box" "1: div" "gpt-4o" None];
      logs := [];
      client_state := [] |}).
Proof.
  pose (claim := fun response =>
    observe_refuses_falsy_only "find the search box" "1: div"
      (provider exhausted) "gpt-4o" None (start [Ok response]) response []
      eq_refl).
  split.
  - refine (proj1 (claim (JStr "")) _). do 4 right. reflexivity.
  - refine (proj2 (claim (JStr "none")) _).
    intros [H | [H | [H | [H | H]]]]; discriminate H.
Defined.

Lemma observe_client_failure_propagates_witness :
  observe "find the search box" "1: div" (provider exhausted) "gpt-4o" (Some shot)
    (start [Err timeout]) =
  (Err timeout,
   {| requests :=
        [observe_options "find the search box" "1: div" "gpt-4o" (Some shot)];
      logs := [];
      client_state := [] |}).
Proof.
  exact (observe_client_failure_propagates "find the search box" "1: div"
           (provider exhausted) "gpt-4o" (Some shot) (start [Err timeout])
           timeout [] eq_refl).
Defined.

Lemma ask_raises_on_missing_choices_witness :
  ask "What is the capital of France?" (provider exhausted) "gpt-4o"
    (start [Ok overloaded]) =
  (Err (TypeError "0"),
   {| requests := [ask_options "What is the capital of France?" "gpt-4o"];
      logs := [];
      client_state := [] |}) /\
  ask "What is the capital of France?" (provider exhausted) "gpt-4o"
    (start [Ok choiceless]) =
  (Err (TypeError "message"),
   {| requests := [ask_options "What is the capital of France?" "gpt-4o"];
      logs := [];
      client_state := [] |}).
Proof.
  pose (claim := fun response =>
    ask_raises_on_missing_choices "What is the capital of France?"
      (provider exhausted) "gpt-4o" (start [Ok response]) response [] eq_refl).
  split.
  - exact (proj1 (claim overloaded) eq_refl).
  - exact (proj1 (proj2 (claim choiceless)) [] eq_refl).
Defined.

End WitnessesMore.
